(** * nokia.py: unpacking a Nokia XS-240X-A configuration file

    A shallow embedding of [src/nokia.py] (the [-u] branch of the script and
    the helpers it calls) together with the properties of the decode pipeline
    that the specification states about it.

    Byte strings are lists of integers in [0, 256).  The script's global
    [big_endian] flag is threaded as an explicit argument.  Everything the
    script does to the outside world (lines printed, calls into the AES and
    zlib libraries) is recorded, in order, in a trace of events carried by a
    small state-and-exception monad; Python exceptions are the error side of
    that monad. *)

From Stdlib Require Import String.
From Stdlib Require Import ZArith List Bool Lia.
Import ListNotations.
Local Open Scope Z_scope.

Definition bytes := list Z.

(** A well-formed byte string: every element is an octet. *)
Definition is_byte (b : Z) : Prop := 0 <= b < 256.
Definition is_bytes (l : bytes) : Prop := Forall is_byte l.

Definition bytes_eq_dec : forall a b : bytes, {a = b} + {a <> b} :=
  list_eq_dec Z.eq_dec.

(** ** The fragments of Python the script relies on *)
Module Py.

Definition len (l : bytes) : Z := Z.of_nat (length l).

(** A slice bound as Python normalises it: a negative bound counts from the
    end, and every bound is clamped into [0, len]. *)
Definition bound (n i : Z) : Z :=
  if i <? 0 then Z.max (i + n) 0 else Z.min i n.

(** [l[start:stop]]; [None] stands for an omitted bound. *)
Definition slice (l : bytes) (start stop : option Z) : bytes :=
  let n := len l in
  let lo := match start with Some i => bound n i | None => 0 end in
  let hi := match stop with Some i => bound n i | None => n end in
  firstn (Z.to_nat (hi - lo)) (skipn (Z.to_nat lo) l).

(** Truthiness of a bytes object: empty is false. *)
Definition truthy (l : bytes) : bool :=
  match l with [] => false | _ :: _ => true end.

(** Truthiness of a variable that holds [None] or a bytes object. *)
Definition truthy_opt (v : option bytes) : bool :=
  match v with None => false | Some l => truthy l end.

End Py.

(** ** AES-256 in CBC mode (the [Crypto.Cipher.AES] object the script builds)

    The inverse cipher of FIPS-197 on a 16-byte block held in input order
    (byte [r + 4c] is row [r], column [c] of the state), and CBC decryption
    of SP 800-38A on top of it. *)
Module AES.

Definition xtime (a : Z) : Z :=
  Z.land (Z.lxor (Z.shiftl a 1) (if Z.testbit a 7 then 0x1b else 0)) 0xff.

(** Multiplication in GF(2^8) modulo x^8 + x^4 + x^3 + x + 1. *)
Fixpoint gmul_aux (n : nat) (a b acc : Z) : Z :=
  match n with
  | O => acc
  | S n' =>
      gmul_aux n' (xtime a) (Z.shiftr b 1)
               (if Z.testbit b 0 then Z.lxor acc a else acc)
  end.
Definition gmul (a b : Z) : Z := gmul_aux 8 a b 0.

Fixpoint gpow (a : Z) (n : nat) : Z :=
  match n with O => 1 | S n' => gmul a (gpow a n') end.

Definition rotl8 (a : Z) (k : Z) : Z :=
  Z.land (Z.lor (Z.shiftl a k) (Z.shiftr a (8 - k))) 0xff.

(** The S-box: multiplicative inverse followed by the affine map. *)
Definition sbox_of (a : Z) : Z :=
  let b := gpow a 254 in
  Z.lxor (Z.lxor (Z.lxor (Z.lxor (Z.lxor b (rotl8 b 1)) (rotl8 b 2))
                         (rotl8 b 3)) (rotl8 b 4)) 0x63.

Definition octets : list Z := map Z.of_nat (seq 0 256).

Definition sbox : list Z := Eval vm_compute in map sbox_of octets.

Definition find_index (v : Z) (l : list Z) : Z :=
  (fix go (i : Z) (l : list Z) : Z :=
     match l with
     | [] => 0
     | x :: l' => if x =? v then i else go (i + 1) l'
     end) 0 l.

Definition inv_sbox : list Z :=
  Eval vm_compute in map (fun v => find_index v sbox) octets.

Definition sub (table : list Z) (a : Z) : Z := nth (Z.to_nat a) table 0.

Definition xor_bytes (a b : bytes) : bytes :=
  map (fun p => Z.lxor (fst p) (snd p)) (combine a b).

(** *** Key expansion, Nk = 8 *)
Definition rot_word (w : bytes) : bytes :=
  match w with a :: rest => rest ++ [a] | [] => [] end.
Definition sub_word (w : bytes) : bytes := map (sub sbox) w.

(** [rcon j] is the round constant word for [j >= 1]. *)
Definition rcon (j : nat) : bytes := [gpow 2 (j - 1); 0; 0; 0].

Fixpoint words (l : bytes) (n : nat) : list bytes :=
  match n with
  | O => []
  | S n' => firstn 4 l :: words (skipn 4 l) n'
  end.

(** [expand_from i n ws] appends words [i, i + n) to the schedule [ws],
    which already holds words [0, i). *)
Fixpoint expand_from (i n : nat) (ws : list bytes) : list bytes :=
  match n with
  | O => ws
  | S n' =>
      let prev := nth (i - 1) ws [] in
      let temp :=
        if Nat.eqb (Nat.modulo i 8) 0
        then xor_bytes (sub_word (rot_word prev)) (rcon (Nat.div i 8))
        else if Nat.eqb (Nat.modulo i 8) 4 then sub_word prev
        else prev in
      expand_from (S i) n' (ws ++ [xor_bytes (nth (i - 8) ws []) temp])
  end.

Definition key_expansion (key : bytes) : list bytes :=
  expand_from 8 52 (words key 8).

(** Round key [r]: words [4r .. 4r+3] of the schedule, as 16 bytes. *)
Definition round_key (w : list bytes) (r : nat) : bytes :=
  concat (firstn 4 (skipn (4 * r) w)).

(** *** The inverse cipher *)
Definition add_round_key (st k : bytes) : bytes := xor_bytes st k.

Definition inv_sub_bytes (st : bytes) : bytes := map (sub inv_sbox) st.

(** Row [r] moves right by [r] columns: s'[r, c] = s[r, (c - r) mod 4]. *)
Definition inv_shift_rows (st : bytes) : bytes :=
  map (fun i => nth i st 0)
      [0; 13; 10; 7; 4; 1; 14; 11; 8; 5; 2; 15; 12; 9; 6; 3]%nat.

Definition inv_mix_column (col : bytes) : bytes :=
  match col with
  | [a0; a1; a2; a3] =>
      [ Z.lxor (Z.lxor (gmul 0x0e a0) (gmul 0x0b a1))
               (Z.lxor (gmul 0x0d a2) (gmul 0x09 a3));
        Z.lxor (Z.lxor (gmul 0x09 a0) (gmul 0x0e a1))
               (Z.lxor (gmul 0x0b a2) (gmul 0x0d a3));
        Z.lxor (Z.lxor (gmul 0x0d a0) (gmul 0x09 a1))
               (Z.lxor (gmul 0x0e a2) (gmul 0x0b a3));
        Z.lxor (Z.lxor (gmul 0x0b a0) (gmul 0x0d a1))
               (Z.lxor (gmul 0x09 a2) (gmul 0x0e a3)) ]
  | _ => col
  end.

Definition inv_mix_columns (st : bytes) : bytes :=
  concat (map inv_mix_column (words st 4)).

Definition inv_round (w : list bytes) (st : bytes) (r : nat) : bytes :=
  inv_mix_columns
    (add_round_key (inv_sub_bytes (inv_shift_rows st)) (round_key w r)).

(** Rounds Nr-1 down to 1, Nr = 14. *)
Definition middle_rounds : list nat :=
  [13; 12; 11; 10; 9; 8; 7; 6; 5; 4; 3; 2; 1]%nat.

Definition inv_cipher (w : list bytes) (block : bytes) : bytes :=
  let st := add_round_key block (round_key w 14) in
  let st := fold_left (inv_round w) middle_rounds st in
  add_round_key (inv_sub_bytes (inv_shift_rows st)) (round_key w 0).

(** *** CBC decryption: P_i = D(C_i) xor C_{i-1}, with C_0 the IV *)
Fixpoint cbc_loop (w : list bytes) (n : nat) (prev data : bytes) : bytes :=
  match n with
  | O => []
  | S n' =>
      let c := firstn 16 data in
      xor_bytes (inv_cipher w c) prev ++ cbc_loop w n' c (skipn 16 data)
  end.

(** [None] is the library's refusal of data that is not a whole number of
    blocks (a [ValueError] in Python). *)
Definition cbc_decrypt (w : list bytes) (iv data : bytes) : option bytes :=
  if Z.of_nat (length data) mod 16 =? 0
  then Some (cbc_loop w (Nat.div (length data) 16) iv data)
  else None.

End AES.

(** ** binascii.crc32

    The CRC-32 of zlib: reflected, polynomial 0xEDB88320, initial value and
    final xor 0xFFFFFFFF, computed bit by bit. *)
Module Binascii.

Definition poly : Z := 0xEDB88320.

Fixpoint shift_bits (n : nat) (c : Z) : Z :=
  match n with
  | O => c
  | S n' =>
      shift_bits n' (if Z.testbit c 0
                     then Z.lxor (Z.shiftr c 1) poly
                     else Z.shiftr c 1)
  end.

Definition update (c b : Z) : Z := shift_bits 8 (Z.lxor c b).

Definition crc32 (data : bytes) : Z :=
  Z.lxor (fold_left update data 0xFFFFFFFF) 0xFFFFFFFF.

End Binascii.

(** ** Exceptions, effects and the monad of the script *)

Inductive exn : Type :=
| ValueError            (* the cipher refusing unaligned data *)
| IndexError            (* indexing past the end of a sequence *)
| NameError             (* reading a variable that was never bound *)
| StructError           (* struct.error *)
| ZlibError             (* zlib.error *)
| SystemExit (code : Z) (* sys.exit(code) *).

(** [except Exception] catches every exception above except [SystemExit],
    which derives from [BaseException] only. *)
Definition is_Exception (e : exn) : bool :=
  match e with SystemExit _ => false | _ => true end.

Definition is_zlib_error (e : exn) : bool :=
  match e with ZlibError => true | _ => false end.

(** The lines the script prints, one constructor per [print] call. *)
Inductive message : Type :=
| MsgStart          (* -> Starting configuration file unpacker... *)
| MsgInvalidCfg     (* Error: Invalid cfg file/magic. Decryption failed, or key is wrong. *)
| MsgEncrypted      (* -> Encrypted cfg detected. Decryption successful. *)
| MsgUnencrypted    (* -> Unencrypted cfg detected. *)
| MsgBigEndian      (* -> Big endian CPU detected *)
| MsgLittleEndian   (* -> Little endian CPU detected *)
| MsgFwMagic (fw_magic : Z)       (* -> fw_magic = 0x... *)
| MsgCrcFailed      (* Error: CRC32 checksum failed. The file is corrupt. *)
| MsgCrcPassed      (* -> CRC32 check passed. Attempting decompression... *)
| MsgSuccess (offset wbits : Z)   (* -> SUCCESS! Unpacked with ... *)
| MsgDecompFailed   (* Error: Decompression failed. The 16-byte proprietary header fix failed. *)
| MsgNonDeflate     (* The file may be using a non-Deflate compression method. *)
| MsgUnpacked       (* Successfully unpacked as: ... *)
| MsgRepackHeading  (* # Repack command: *)
| MsgRepack (big_endian encrypted_cfg : bool) (fw_magic : Z)
                    (* <script> -p[b|l][e] <file> <fw_magic> *).

Inductive event : Type :=
| Print (m : message)
| AesDecrypt (data : bytes)                (* cipher.decrypt(data) *)
| ZlibDecompress (data : bytes) (wbits : Z) (* zlib.decompress(data, wbits) *)
| WriteFile (data : bytes)                 (* of.write(data) *).

Definition trace := list event.

Definition M (A : Type) : Type := trace -> (exn + A) * trace.

Definition ret {A} (a : A) : M A := fun t => (inr a, t).

Definition raise {A} (e : exn) : M A := fun t => (inl e, t).

Definition bind {A B} (m : M A) (k : A -> M B) : M B :=
  fun t =>
    match m t with
    | (inl e, t') => (inl e, t')
    | (inr a, t') => k a t'
    end.

Notation "x <- m ;; k" := (bind m (fun x => k))
  (at level 61, m at next level, right associativity).
Notation "m ;; k" := (bind m (fun _ => k))
  (at level 61, right associativity).

Definition emit (e : event) : M unit := fun t => (inr tt, t ++ [e]).

Definition print (m : message) : M unit := emit (Print m).

Definition sys_exit {A} (code : Z) : M A := raise (SystemExit code).

(** [try: body / except <class>: handler], where [catches] decides whether
    an exception belongs to the class. *)
Definition try_except {A} (body : M A) (catches : exn -> bool)
           (handler : M A) : M A :=
  fun t =>
    match body t with
    | (inl e, t') => if catches e then handler t' else (inl e, t')
    | (inr a, t') => (inr a, t')
    end.

(** [l[i]] for an integer index: negative indices count from the end. *)
Definition getitem (l : bytes) (i : Z) : M Z :=
  let j := if i <? 0 then i + Py.len l else i in
  if (0 <=? j) && (j <? Py.len l)
  then ret (nth (Z.to_nat j) l 0)
  else raise IndexError.

(** A computation ends in one of three ways: it returns a value, it calls
    [sys.exit] after reporting a failure the script anticipated, or it
    raises some other exception.  The last case is a fault: unless a handler
    further out catches it, the interpreter aborts with a traceback. *)
Definition faults {A} (r : (exn + A) * trace) : Prop :=
  match fst r with
  | inl (SystemExit _) => False
  | inl _ => True
  | inr _ => False
  end.

Definition zlib_calls (t : trace) : list (bytes * Z) :=
  flat_map (fun e => match e with
                     | ZlibDecompress d w => [(d, w)]
                     | _ => []
                     end) t.

Definition aes_calls (t : trace) : list bytes :=
  flat_map (fun e => match e with AesDecrypt d => [d] | _ => [] end) t.

(** ** Helpers of the script *)

(** [struct.unpack('>I' if big_endian else '<I', val)[0]]: exactly four
    bytes are required. *)
Definition u32 (big_endian : bool) (val : bytes) : M Z :=
  match val with
  | [b0; b1; b2; b3] =>
      ret (if big_endian
           then b0 * 2 ^ 24 + b1 * 2 ^ 16 + b2 * 2 ^ 8 + b3
           else b3 * 2 ^ 24 + b2 * 2 ^ 16 + b1 * 2 ^ 8 + b0)
  | _ => raise StructError
  end.

Definition big_endian_magic : bytes := [0x00; 0x12; 0x31; 0x23].
Definition little_endian_magic : bytes := [0x23; 0x31; 0x12; 0x00].

(** [True], [False] and [None] of the source are [Some true], [Some false]
    and [None]. *)
Definition checkendian (cfg : bytes) : option bool :=
  if bytes_eq_dec (Py.slice cfg (Some 0) (Some 4)) big_endian_magic
  then Some true
  else if bytes_eq_dec (Py.slice cfg (Some 0) (Some 4)) little_endian_magic
  then Some false
  else None.

Module RouterCrypto.

Definition key : bytes :=
  [0xF8; 0x4A; 0x90; 0xB1; 0xC5; 0xC7; 0x11; 0x9F;
   0x4A; 0x24; 0xAC; 0x88; 0xF0; 0xC6; 0x27; 0x50;
   0xB9; 0x4D; 0x05; 0x91; 0x6F; 0x08; 0xD9; 0x01;
   0x4F; 0x35; 0x0C; 0xA4; 0xF8; 0x2B; 0x45; 0x42].

Definition iv : bytes :=
  [0x87; 0xD0; 0xE1; 0x59; 0x79; 0x36; 0x29; 0x48;
   0x4D; 0x59; 0xCC; 0xA3; 0xF9; 0x54; 0xD5; 0x47].

Definition schedule : list bytes :=
  Eval vm_compute in AES.key_expansion key.

(** [self.cipher.decrypt(data)] on a freshly built AES-256-CBC object. *)
Definition cipher_decrypt (data : bytes) : M bytes :=
  emit (AesDecrypt data) ;;
  match AES.cbc_decrypt schedule iv data with
  | Some output => ret output
  | None => raise ValueError
  end.

Definition decrypt (data : bytes) : M bytes :=
  output <- cipher_decrypt data ;;
  pad_size <- getitem output (-1) ;;
  ret (Py.slice output None (Some (- pad_size))).

End RouterCrypto.

(** [result] is [output] with exactly as many trailing bytes removed as the
    last byte of [output] says. *)
Definition strips_exactly (output result : bytes) : Prop :=
  exists removed,
    output = result ++ removed /\ Py.len removed = last output 0.

(** The 32-bit integer that the four bytes at offset [a] of [l] encode. *)
Definition word_at (big_endian : bool) (l : bytes) (a : nat) : Z :=
  let b i := nth (a + i) l 0 in
  if big_endian
  then b 0%nat * 2 ^ 24 + b 1%nat * 2 ^ 16 + b 2%nat * 2 ^ 8 + b 3%nat
  else b 3%nat * 2 ^ 24 + b 2%nat * 2 ^ 16 + b 1%nat * 2 ^ 8 + b 0%nat.

(** ** The unpack branch, stage by stage *)

(** Lines 76-94.  Returns the values of [cfg_data], [big_endian] and
    [encrypted_cfg] after the check.  Inside the [try], [decrypted] is bound
    before [big_endian] is reassigned, and only the call to [decrypt] can
    raise, so after a caught exception [decrypted] is unbound and
    [big_endian] is still [None]. *)
Definition decryption_check (cfg_data : bytes) : M (bytes * bool * bool) :=
  match checkendian cfg_data with
  | None =>
      vars <- try_except
                (decrypted <- RouterCrypto.decrypt cfg_data ;;
                 ret (Some decrypted, checkendian decrypted))
                is_Exception
                (ret (None, None)) ;;
      match snd vars with
      | None => print MsgInvalidCfg ;; sys_exit 1
      | Some big_endian =>
          print MsgEncrypted ;;
          match fst vars with
          | Some decrypted => ret (decrypted, big_endian, true)
          | None => raise NameError
          end
      end
  | Some big_endian =>
      print MsgUnencrypted ;;
      ret (cfg_data, big_endian, false)
  end.

(** Lines 96-100. *)
Definition log_endianness (big_endian : bool) : M unit :=
  if big_endian then print MsgBigEndian else print MsgLittleEndian.

Record header : Type := mk_header {
  fw_magic : Z;
  data_size : Z;
  compressed : bytes;
  checksum : Z
}.

(** Lines 102-107. *)
Definition extract_header (big_endian : bool) (cfg_data : bytes) : M header :=
  fw_magic <- u32 big_endian (Py.slice cfg_data (Some 0x10) (Some 0x14)) ;;
  data_size <- u32 big_endian (Py.slice cfg_data (Some 4) (Some 8)) ;;
  let compressed := Py.slice cfg_data (Some 0x14) (Some (0x14 + data_size)) in
  checksum <- u32 big_endian (Py.slice cfg_data (Some 8) (Some 12)) ;;
  print (MsgFwMagic fw_magic) ;;
  ret (mk_header fw_magic data_size compressed checksum).

(** Lines 109-114. *)
Definition verify_checksum (compressed : bytes) (checksum : Z) : M unit :=
  if negb (Z.land (Binascii.crc32 compressed) 0xFFFFFFFF =? checksum)
  then print MsgCrcFailed ;; sys_exit 1
  else print MsgCrcPassed.

(** [range(a, b)] *)
Definition py_range (a b : Z) : list Z :=
  map (fun i => a + Z.of_nat i) (seq 0 (Z.to_nat (b - a))).

Definition wbits_to_try : list Z := py_range (-15) (-7) ++ [15; 31; 47].

Definition offsets : list Z := [0; 4; 8; 12; 16].

(** What a [wbits] argument asks of zlib's inflate, as the library documents
    it: the container format expected and the base-two logarithm of the
    window size. *)
Inductive stream_format : Type :=
| RawDeflate | ZlibWrapped | GzipWrapped | AutoDetect.

Definition wbits_meaning (wbits : Z) : option (stream_format * Z) :=
  if (-15 <=? wbits) && (wbits <=? -8) then Some (RawDeflate, - wbits)
  else if (8 <=? wbits) && (wbits <=? 15) then Some (ZlibWrapped, wbits)
  else if (24 <=? wbits) && (wbits <=? 31) then Some (GzipWrapped, wbits - 16)
  else if (40 <=? wbits) && (wbits <=? 47) then Some (AutoDetect, wbits - 32)
  else None.

Section Unpack.

(** [zlib.decompress(data, wbits)]: [None] when the library raises
    [zlib.error], the decompressed bytes otherwise. *)
Variable zlib_decompress : bytes -> Z -> option bytes.

Definition zlib_call (data : bytes) (wbits : Z) : M bytes :=
  emit (ZlibDecompress data wbits) ;;
  match zlib_decompress data wbits with
  | Some out => ret out
  | None => raise ZlibError
  end.

(** One pass through the body of the inner loop (lines 129-135): the new
    value of [xml_data] and whether the loop was left by [break]. *)
Definition attempt (offset : Z) (compressed_offset : bytes) (wbits : Z)
           (xml_data : option bytes) : M (option bytes * bool) :=
  try_except
    (out <- zlib_call compressed_offset wbits ;;
     if Py.truthy out
     then print (MsgSuccess offset wbits) ;; ret (Some out, true)
     else ret (Some out, false))
    is_zlib_error
    (ret (xml_data, false)).

(** Lines 128-135: the value of [xml_data] when the inner loop ends. *)
Fixpoint inner_loop (offset : Z) (compressed_offset : bytes)
         (ws : list Z) (xml_data : option bytes) : M (option bytes) :=
  match ws with
  | [] => ret xml_data
  | wbits :: ws' =>
      r <- attempt offset compressed_offset wbits xml_data ;;
      if snd r then ret (fst r)
      else inner_loop offset compressed_offset ws' (fst r)
  end.

(** Lines 125-138. *)
Fixpoint outer_loop (compressed : bytes) (offs : list Z)
         (xml_data : option bytes) : M (option bytes) :=
  match offs with
  | [] => ret xml_data
  | offset :: offs' =>
      let compressed_offset := Py.slice compressed (Some offset) None in
      xml_data <- inner_loop offset compressed_offset wbits_to_try xml_data ;;
      if Py.truthy_opt xml_data then ret xml_data
      else outer_loop compressed offs' xml_data
  end.

(** Lines 117-144.  A truthy [xml_data] is a bytes object, so the last
    branch is never taken. *)
Definition decompress (compressed : bytes) : M bytes :=
  xml_data <- outer_loop compressed offsets None ;;
  if negb (Py.truthy_opt xml_data)
  then print MsgDecompFailed ;; print MsgNonDeflate ;; sys_exit 1
  else match xml_data with
       | Some data => ret data
       | None => raise NameError
       end.

Record unpacked : Type := mk_unpacked {
  xml_data : bytes;
  big_endian : bool;
  encrypted_cfg : bool;
  magic : Z
}.

(** Lines 66-154, from the bytes read from the file to the values the
    repack hint is built from.  The dependency check and the opening of the
    input file come before and are not part of it; the name of the output
    file does not matter here. *)
Definition unpack (cfg_data : bytes) : M unpacked :=
  print MsgStart ;;
  checked <- decryption_check cfg_data ;;
  let '(cfg_data, big_endian, encrypted_cfg) := checked in
  log_endianness big_endian ;;
  h <- extract_header big_endian cfg_data ;;
  verify_checksum (compressed h) (checksum h) ;;
  xml_data <- decompress (compressed h) ;;
  emit (WriteFile xml_data) ;;
  print MsgUnpacked ;;
  print MsgRepackHeading ;;
  print (MsgRepack big_endian encrypted_cfg (fw_magic h)) ;;
  ret (mk_unpacked xml_data big_endian encrypted_cfg (fw_magic h)).

End Unpack.

(** ** The search order of the decompression loops, as a list

    The candidates in the order the nested loops visit them: offsets in the
    outer position, [wbits] in the inner one. *)
Definition candidates : list (Z * Z) := list_prod offsets wbits_to_try.

Section Candidates.

Variable zlib_decompress : bytes -> Z -> option bytes.
Variable compressed : bytes.

Definition candidate_input (c : Z * Z) : bytes :=
  Py.slice compressed (Some (fst c)) None.

(** The event that trying candidate [c] leaves in the trace. *)
Definition attempt_event (c : Z * Z) : event :=
  ZlibDecompress (candidate_input c) (snd c).

(** A candidate wins when the library returns without [zlib.error] and
    the output is not empty. *)
Definition outcome (c : Z * Z) : option bytes :=
  match zlib_decompress (candidate_input c) (snd c) with
  | Some out => if Py.truthy out then Some out else None
  | None => None
  end.

(** The candidate raises [zlib.error] or returns empty output. *)
Definition fails (c : Z * Z) : Prop := outcome c = None.

Definition failsb (c : Z * Z) : bool :=
  match outcome c with None => true | Some _ => false end.

(** The first winner of a list of candidates, with the candidates tried up
    to and including it. *)
Fixpoint search (cands : list (Z * Z))
  : option (list (Z * Z) * (Z * Z) * bytes) :=
  match cands with
  | [] => None
  | c :: rest =>
      match outcome c with
      | Some out => Some ([c], c, out)
      | None =>
          match search rest with
          | Some (tried, winner, out) => Some (c :: tried, winner, out)
          | None => None
          end
      end
  end.

End Candidates.

(** ** The parameter list in the words of the specification

    "raw-Deflate windows from the smallest supported size up to the largest,
    the zlib-wrapped format, and the gzip-wrapped format". *)
Module SpecWords.

Definition raw_windows_ascending : list Z :=
  [-8; -9; -10; -11; -12; -13; -14; -15].

Definition inner_candidates : list Z := raw_windows_ascending ++ [15; 31].

(** Window sizes of the raw-Deflate entries at the head of a list. *)
Fixpoint raw_prefix_windows (ws : list Z) : list Z :=
  match ws with
  | w :: ws' =>
      match wbits_meaning w with
      | Some (RawDeflate, k) => 2 ^ k :: raw_prefix_windows ws'
      | _ => []
      end
  | [] => []
  end.

Fixpoint ascending (l : list Z) : bool :=
  match l with
  | a :: (b :: _) as l' => (a <? b) && ascending l'
  | _ => true
  end.

(** The formats of the entries that follow the raw-Deflate head. *)
Fixpoint after_raw (ws : list Z) : list (option (stream_format * Z)) :=
  match ws with
  | w :: ws' =>
      match wbits_meaning w with
      | Some (RawDeflate, _) => after_raw ws'
      | _ => map wbits_meaning ws
      end
  | [] => []
  end.

(** The claimed shape of the list, decided. *)
Definition smallest_to_largest_then_zlib_gzip (ws : list Z) : bool :=
  ascending (raw_prefix_windows ws)
  && match after_raw ws with
     | [Some (ZlibWrapped, _); Some (GzipWrapped, _)] => true
     | _ => false
     end.

End SpecWords.

(** ** Concrete inputs used by the examples *)
Module Samples.

(** A stand-in for the library that understands exactly one final stored
    Deflate block without a wrapper ([01 LEN NLEN data], [wbits] from -15
    to -8) and rejects everything else.  On [payload] below it agrees with
    zlib for each of the 55 candidates. *)
Definition stored_inflate (data : bytes) (wbits : Z) : option bytes :=
  if (-15 <=? wbits) && (wbits <=? -8) then
    match data with
    | 0x01 :: l0 :: l1 :: n0 :: n1 :: rest =>
        let n := l0 + 256 * l1 in
        if (n0 + 256 * n1 =? 0xFFFF - n) && (n <=? Py.len rest)
        then Some (firstn (Z.to_nat n) rest)
        else None
    | _ => None
    end
  else None.

(** FIPS-197, appendix C.3: key, ciphertext block and plaintext block. *)
Definition fips_key : bytes := map Z.of_nat (seq 0 32).
Definition fips_ciphertext : bytes :=
  [0x8E; 0xA2; 0xB7; 0xCA; 0x51; 0x67; 0x45; 0xBF;
   0xEA; 0xFC; 0x49; 0x90; 0x4B; 0x49; 0x60; 0x89].
Definition fips_plaintext : bytes :=
  [0x00; 0x11; 0x22; 0x33; 0x44; 0x55; 0x66; 0x77;
   0x88; 0x99; 0xAA; 0xBB; 0xCC; 0xDD; 0xEE; 0xFF].

(** A decompressor for which no candidate works. *)
Definition reject_all (data : bytes) (wbits : Z) : option bytes := None.

(** Sixteen bytes of wrapper followed by a stored block holding "abc". *)
Definition payload : bytes :=
  repeat 0xFF 16 ++ [0x01; 0x03; 0x00; 0xFC; 0xFF; 0x61; 0x62; 0x63].

(** A plaintext big-endian file around [payload]. *)
Definition plain_be : bytes :=
  [0x00; 0x12; 0x31; 0x23; 0x00; 0x00; 0x00; 0x18;
   0xFC; 0x5D; 0x2F; 0xC9; 0x00; 0x00; 0x00; 0x00;
   0x4F; 0x4E; 0x54; 0x31] ++ payload.

(** The same file for a little-endian device. *)
Definition plain_le : bytes :=
  [0x23; 0x31; 0x12; 0x00; 0x18; 0x00; 0x00; 0x00;
   0xC9; 0x2F; 0x5D; 0xFC; 0x00; 0x00; 0x00; 0x00;
   0x31; 0x54; 0x4E; 0x4F] ++ payload.

(** [plain_le] padded with four bytes 04 and encrypted under the router
    key. *)
Definition encrypted_le : bytes :=
  [0x97; 0x48; 0xD2; 0x9A; 0x7F; 0xAD; 0xC3; 0xAB;
   0x80; 0xBD; 0x83; 0x75; 0x94; 0x6E; 0x23; 0xBE;
   0x00; 0x31; 0xEA; 0x84; 0x1D; 0x37; 0x94; 0x21;
   0xB7; 0x71; 0x08; 0xBD; 0x18; 0x7E; 0x63; 0x83;
   0x1C; 0xAA; 0x09; 0x65; 0xBE; 0x91; 0x9A; 0xE9;
   0xDC; 0xB7; 0x46; 0x15; 0x42; 0xA0; 0xE8; 0x84].

(** One block whose decryption is the big-endian magic followed by twelve
    zero bytes, so that the last byte of the raw decryption is 0. *)
Definition encrypted_zero_pad : bytes :=
  [0xF8; 0x01; 0xF8; 0x05; 0xB3; 0xFE; 0x17; 0xBD;
   0x7C; 0x1C; 0x15; 0xE8; 0x48; 0x3D; 0x82; 0x42].


(** [plain_be] with the checksum field zeroed. *)
Definition bad_checksum : bytes :=
  [0x00; 0x12; 0x31; 0x23; 0x00; 0x00; 0x00; 0x18;
   0x00; 0x00; 0x00; 0x00; 0x00; 0x00; 0x00; 0x00;
   0x4F; 0x4E; 0x54; 0x31] ++ payload.

(** [plain_le] followed by the four bytes 04 04 05 04, which are not a
    PKCS#7 padding, encrypted under the router key. *)
Definition tampered_padding : bytes :=
  [0x97; 0x48; 0xD2; 0x9A; 0x7F; 0xAD; 0xC3; 0xAB;
   0x80; 0xBD; 0x83; 0x75; 0x94; 0x6E; 0x23; 0xBE;
   0x00; 0x31; 0xEA; 0x84; 0x1D; 0x37; 0x94; 0x21;
   0xB7; 0x71; 0x08; 0xBD; 0x18; 0x7E; 0x63; 0x83;
   0xB6; 0x3C; 0x52; 0xC5; 0xE7; 0x86; 0x1C; 0x41;
   0xA6; 0x24; 0x8F; 0xE1; 0x24; 0x80; 0xDB; 0x85].

(** [plain_le] followed by three bytes AA and seventeen bytes 11, one more
    than a block can hold as padding, encrypted under the router key. *)
Definition oversized_padding : bytes :=
  [0x97; 0x48; 0xD2; 0x9A; 0x7F; 0xAD; 0xC3; 0xAB;
   0x80; 0xBD; 0x83; 0x75; 0x94; 0x6E; 0x23; 0xBE;
   0x00; 0x31; 0xEA; 0x84; 0x1D; 0x37; 0x94; 0x21;
   0xB7; 0x71; 0x08; 0xBD; 0x18; 0x7E; 0x63; 0x83;
   0x58; 0x9A; 0xAF; 0x61; 0x6C; 0x93; 0x8A; 0x25;
   0xF1; 0x90; 0xD3; 0xD8; 0x9B; 0x42; 0x07; 0x38;
   0xF9; 0xC7; 0xC5; 0xF7; 0xF7; 0x1B; 0x3C; 0xAB;
   0xEE; 0x13; 0xE2; 0x13; 0x8D; 0x8C; 0x2B; 0x93].

End Samples.

(** ** PKCS#7 padding (RFC 5652, section 6.3), for blocks of 16 bytes

    The script has no such test: [decrypt] reads the last byte and slices.
    The predicate says which cipher outputs end in a well-formed padding,
    that is, in [n] bytes of value [n] with [1 <= n <= 16]. *)
Definition pkcs7_padded (output : bytes) : bool :=
  let n := last output 0 in
  (1 <=? n) && (n <=? 16) && (n <=? Py.len output)
  && forallb (Z.eqb n) (skipn (length output - Z.to_nat n) output).

(** ** The packing helper

    [struct.pack('>I' if big_endian else '<I', val)]: the four octets of
    [val] in the chosen byte order; [struct.error] when [val] does not fit
    an unsigned 32-bit integer. *)
Definition p32 (big_endian : bool) (val : Z) : M bytes :=
  if (0 <=? val) && (val <? 2 ^ 32)
  then
    let b3 := val / 2 ^ 24 in
    let b2 := val / 2 ^ 16 mod 256 in
    let b1 := val / 2 ^ 8 mod 256 in
    let b0 := val mod 256 in
    ret (if big_endian then [b3; b2; b1; b0] else [b0; b1; b2; b3])
  else raise StructError.

Definition is_byteb (b : Z) : bool := (0 <=? b) && (b <? 256).
Definition is_bytesb (l : bytes) : bool := forallb is_byteb l.

(** A computation only ever appends to the trace, and neither its result
    nor what it appends depends on what the trace held before. *)
Definition frames {A} (m : M A) : Prop :=
  forall t, m t = (fst (m []), t ++ snd (m [])).

Definition writes (t : trace) : list bytes :=
  flat_map (fun e => match e with WriteFile d => [d] | _ => [] end) t.

(** ** The command line (lines 58-74, 147-150 and 156-162) *)

Inductive cli_message : Type :=
| MsgNeedCrypto     (* Error: The 'pycryptodome' library is required. *)
| MsgInstallCrypto  (* Please install it: pip3 install pycryptodome *)
| MsgFileNotFound (path : string)  (* Error: File not found: ... *)
| MsgBanner         (* # Nokia/Alcatel-Lucent Router Configuration Tool ... *)
| MsgUsageHeading   (* # Usage: *)
| MsgUsageLine (argv0 : string)    (* <argv0> -u CFG.cfg *)
| MsgInstallDeps    (* # Install dependencies: pip3 install pycryptodome *).

(** What lines 70-71 do: [open(sys.argv[2], 'rb')] and [cf.read()]. *)
Inductive open_result : Type :=
| Opened (contents : bytes)  (* the file is opened and read *)
| NotFound                   (* open raises FileNotFoundError *)
| OpenError                  (* open or read raises any other exception *).

(** How a run of the whole script can be cut short: by an exception of the
    unpack stages ([sys.exit] included), or by an error of the file system
    that no handler of the script catches. *)
Inductive cli_exn : Type :=
| Raised (e : exn)
| OSError.

(** What a run of the whole script does, in order: its own lines, the
    opening of the input file for reading and of the output file for
    writing, and the events of the unpack stages. *)
Inductive cli_event : Type :=
| Cli (m : cli_message)
| OpenRead (path : string)   (* open(path, 'rb') *)
| OpenWrite (path : string)  (* open(path, 'wb') *)
| Core (e : event).

Definition core_events (t : list cli_event) : trace :=
  flat_map (fun e => match e with Core e' => [e'] | _ => [] end) t.

Definition files_read (t : list cli_event) : list string :=
  flat_map (fun e => match e with OpenRead p => [p] | _ => [] end) t.

Definition files_written (t : list cli_event) : list string :=
  flat_map (fun e => match e with OpenWrite p => [p] | _ => [] end) t.

Section Main.

Variable zlib_decompress : bytes -> Z -> option bytes.

(** Whether [from Crypto.Cipher import AES] succeeded when the script was
    loaded, that is, whether ['AES'] is in [globals()]. *)
Variable aes_imported : bool.

(** The file system as lines 70-71 see it. *)
Variable open_input : string -> open_result.

(** [datetime.datetime.now().strftime('%d%m%Y-%H%M%S')] at line 148. *)
Variable now : string.

(** Whether [open(name, 'wb')] at line 149 succeeds; when it does not, it
    raises an [OSError] that nothing catches.  The write that follows an
    open that succeeded is taken to succeed, as in [unpack]. *)
Variable open_output : string -> bool.

(** Line 148. *)
Definition out_filename : string := ("config-" ++ now ++ ".xml")%string.

(** Lines 76-144: from the bytes of the file to the decompressed data, with
    the values the repack hint needs. *)
Definition unpack_stages (cfg_data : bytes) : M (bytes * bool * bool * Z) :=
  checked <- decryption_check cfg_data ;;
  let '(cfg_data, big_endian, encrypted_cfg) := checked in
  log_endianness big_endian ;;
  h <- extract_header big_endian cfg_data ;;
  verify_checksum (compressed h) (checksum h) ;;
  xml_data <- decompress zlib_decompress (compressed h) ;;
  ret (xml_data, big_endian, encrypted_cfg, fw_magic h).

(** Lines 156-162.  The third line needs [sys.argv[0]]. *)
Definition usage (argv : list string)
  : (cli_exn + option unpacked) * list cli_event :=
  match argv with
  | argv0 :: _ =>
      (inr None,
       [Cli MsgBanner; Cli MsgUsageHeading; Cli (MsgUsageLine argv0);
        Cli MsgInstallDeps])
  | [] => (inl (Raised IndexError), [Cli MsgBanner; Cli MsgUsageHeading])
  end.

(** Lines 58-162: the script as run with [sys.argv = argv].  The result is
    [inr None] when the script runs to its end in the usage branch,
    [inr (Some u)] when it runs to its end in the unpack branch. *)
Definition main (argv : list string)
  : (cli_exn + option unpacked) * list cli_event :=
  match argv with
  | [argv0; flag; path] =>
      if String.eqb flag "-u" then
        if negb aes_imported
        then (inl (Raised (SystemExit 1)),
              [Cli MsgNeedCrypto; Cli MsgInstallCrypto])
        else
          let started := [Core (Print MsgStart); OpenRead path] in
          match open_input path with
          | NotFound =>
              (inl (Raised (SystemExit 1)),
               started ++ [Cli (MsgFileNotFound path)])
          | OpenError => (inl OSError, started)
          | Opened cfg_data =>
              match unpack_stages cfg_data [] with
              | (inl e, tr) => (inl (Raised e), started ++ map Core tr)
              | (inr (xml_data, big_endian, encrypted_cfg, fw_magic), tr) =>
                  let staged :=
                    started ++ map Core tr ++ [OpenWrite out_filename] in
                  if open_output out_filename
                  then
                    (inr (Some (mk_unpacked xml_data big_endian
                                            encrypted_cfg fw_magic)),
                     staged
                     ++ map Core
                          [WriteFile xml_data; Print MsgUnpacked;
                           Print MsgRepackHeading;
                           Print (MsgRepack big_endian encrypted_cfg
                                            fw_magic)])
                  else (inl OSError, staged)
              end
          end
      else usage argv
  | _ => usage argv
  end.

End Main.

(** * Properties *)

(** ** Slices and indexing *)

Lemma slice_between (l : bytes) (a b : Z) :
  0 <= a <= b ->
  Py.slice l (Some a) (Some b)
  = firstn (Z.to_nat (b - a)) (skipn (Z.to_nat a) l).
Proof.
  intros Hab. unfold Py.slice, Py.bound, Py.len.
  destruct (Z.ltb_spec a 0); [lia|].
  destruct (Z.ltb_spec b 0); [lia|].
  destruct (Z.le_gt_cases (Z.of_nat (length l)) a) as [Hge|Hlt].
  - rewrite !(skipn_all2 l) by lia. now rewrite !firstn_nil.
  - rewrite (Z.min_l a) by lia.
    destruct (Z.le_gt_cases b (Z.of_nat (length l))).
    + now rewrite Z.min_l by lia.
    + rewrite Z.min_r by lia.
      rewrite !firstn_all2; auto; rewrite length_skipn; lia.
Qed.

Lemma slice_prefix (l : bytes) (k : Z) :
  0 <= k -> Py.slice l (Some 0) (Some k) = firstn (Z.to_nat k) l.
Proof.
  intros Hk. rewrite slice_between by lia.
  now rewrite Z.sub_0_r.
Qed.

Lemma slice_from (l : bytes) (a : Z) :
  0 <= a -> Py.slice l (Some a) None = skipn (Z.to_nat a) l.
Proof.
  intros Ha. unfold Py.slice, Py.bound, Py.len.
  destruct (Z.ltb_spec a 0); [lia|].
  destruct (Z.le_gt_cases (Z.of_nat (length l)) a).
  - rewrite !(skipn_all2 l) by lia. now rewrite firstn_nil.
  - rewrite Z.min_l by lia.
    apply firstn_all2. rewrite length_skipn. lia.
Qed.

(** [l[:-p]]: nothing is left when [p] is 0 or exceeds the length. *)
Lemma slice_drop_last (l : bytes) (p : Z) :
  0 <= p ->
  Py.slice l None (Some (- p))
  = if (1 <=? p) && (p <=? Py.len l)
    then firstn (Z.to_nat (Py.len l - p)) l
    else [].
Proof.
  intros Hp. unfold Py.slice, Py.bound, Py.len. cbn [skipn Z.to_nat].
  set (n := Z.of_nat (length l)).
  assert (Hn : 0 <= n) by (subst n; lia).
  destruct (Z.leb_spec 1 p); cbn [andb].
  - destruct (Z.ltb_spec (- p) 0); [|lia].
    destruct (Z.leb_spec p n).
    + rewrite Z.max_l by lia. f_equal. lia.
    + rewrite Z.max_r by lia. reflexivity.
  - replace p with 0 by lia. cbn. rewrite Z.min_l by lia. reflexivity.
Qed.

Lemma getitem_last (l : bytes) (tr : trace) :
  getitem l (-1) tr
  = match l with
    | [] => (inl IndexError, tr)
    | _ :: _ => (inr (last l 0), tr)
    end.
Proof.
  unfold getitem, Py.len. cbn [Z.ltb Z.compare].
  destruct l as [|x l]; [reflexivity|].
  destruct (Z.leb_spec 0 (-1 + Z.of_nat (length (x :: l))));
    [|cbn [length] in *; lia].
  destruct (Z.ltb_spec (-1 + Z.of_nat (length (x :: l)))
                       (Z.of_nat (length (x :: l)))); [|lia].
  cbn [andb]. unfold ret. f_equal. f_equal.
  replace (Z.to_nat (-1 + Z.of_nat (length (x :: l))))
    with (length (x :: l) - 1)%nat by lia.
  generalize (x :: l) as m. intros m.
  induction m as [|y m IH]; [reflexivity|].
  destruct m as [|z m]; [reflexivity|].
  cbn [length Nat.sub] in *. rewrite Nat.sub_0_r in IH.
  cbn [nth last]. cbn [last] in IH. exact IH.
Qed.

Lemma firstn4_eq (cfg : bytes) (a b c d : Z) :
  firstn 4 cfg = [a; b; c; d] <-> exists rest, cfg = a :: b :: c :: d :: rest.
Proof.
  split.
  - destruct cfg as [|x0 [|x1 [|x2 [|x3 rest]]]]; cbn; intros H;
      try discriminate.
    injection H as -> -> -> ->. now exists rest.
  - intros [rest ->]. reflexivity.
Qed.

(** ** The cipher *)

Example inv_cipher_fips197 :
  AES.inv_cipher (AES.key_expansion Samples.fips_key) Samples.fips_ciphertext
  = Samples.fips_plaintext.
Proof. vm_compute. reflexivity. Qed.

Example cbc_decrypt_sample :
  AES.cbc_decrypt RouterCrypto.schedule RouterCrypto.iv Samples.encrypted_le
  = Some (Samples.plain_le ++ [4; 4; 4; 4]).
Proof. vm_compute. reflexivity. Qed.

(** The cipher accepts exactly the block-aligned inputs and preserves their
    length. *)

Lemma xor_bytes_length (a b : bytes) :
  length (AES.xor_bytes a b) = Nat.min (length a) (length b).
Proof. unfold AES.xor_bytes. now rewrite length_map, length_combine. Qed.

Lemma inv_cipher_length (block : bytes) :
  length (AES.inv_cipher RouterCrypto.schedule block) = 16%nat.
Proof.
  unfold AES.inv_cipher, AES.add_round_key, AES.inv_sub_bytes.
  rewrite xor_bytes_length, length_map.
  unfold AES.inv_shift_rows. rewrite length_map. reflexivity.
Qed.

Lemma cbc_loop_length (n : nat) :
  forall prev data,
    length prev = 16%nat -> length data = (16 * n)%nat ->
    length (AES.cbc_loop RouterCrypto.schedule n prev data) = (16 * n)%nat.
Proof.
  induction n as [|n IH]; intros prev data Hp Hd; [reflexivity|].
  cbn [AES.cbc_loop]. rewrite length_app, xor_bytes_length, inv_cipher_length.
  rewrite Hp, IH.
  - cbn [Nat.min]. lia.
  - rewrite length_firstn. lia.
  - rewrite length_skipn. lia.
Qed.

Lemma cbc_decrypt_aligned (data : bytes) :
  Py.len data mod 16 = 0 ->
  exists output,
    AES.cbc_decrypt RouterCrypto.schedule RouterCrypto.iv data = Some output
    /\ length output = length data.
Proof.
  unfold Py.len, AES.cbc_decrypt. intros H. rewrite H. cbn [Z.eqb].
  eexists. split; [reflexivity|].
  assert (Hn : length data = (16 * Nat.div (length data) 16)%nat).
  { apply Nat.Div0.div_exact. apply Nat2Z.inj.
    rewrite Nat2Z.inj_mod. exact H. }
  rewrite cbc_loop_length; auto.
Qed.

Lemma cbc_decrypt_unaligned (data : bytes) :
  Py.len data mod 16 <> 0 ->
  AES.cbc_decrypt RouterCrypto.schedule RouterCrypto.iv data = None.
Proof.
  unfold Py.len, AES.cbc_decrypt. intros H.
  destruct (Z.eqb_spec (Z.of_nat (length data) mod 16) 0); [contradiction|].
  reflexivity.
Qed.

(** What [decrypt] does with the raw output of the cipher. *)
Lemma decrypt_unfold (data : bytes) (tr : trace) :
  RouterCrypto.decrypt data tr
  = match AES.cbc_decrypt RouterCrypto.schedule RouterCrypto.iv data with
    | None => (inl ValueError, tr ++ [AesDecrypt data])
    | Some [] => (inl IndexError, tr ++ [AesDecrypt data])
    | Some output =>
        (inr (Py.slice output None (Some (- last output 0))),
         tr ++ [AesDecrypt data])
    end.
Proof.
  unfold RouterCrypto.decrypt, RouterCrypto.cipher_decrypt, bind, emit.
  destruct (AES.cbc_decrypt _ _ data) as [output|]; [|reflexivity].
  unfold ret at 1. rewrite getitem_last.
  destruct output; reflexivity.
Qed.

(** ** The endianness check *)

(** C7. [checkendian] is defined on every byte string, however short: it
    answers [True] exactly when the string starts with 00 12 31 23, [False]
    exactly when it starts with 23 31 12 00, and [None] in every other case,
    in particular whenever fewer than four bytes are present. *)
Theorem checkendian_total (cfg : bytes) :
  (checkendian cfg = Some true
   <-> exists rest, cfg = 0x00 :: 0x12 :: 0x31 :: 0x23 :: rest)
  /\ (checkendian cfg = Some false
      <-> exists rest, cfg = 0x23 :: 0x31 :: 0x12 :: 0x00 :: rest)
  /\ (checkendian cfg = None
      <-> (~ exists rest, cfg = 0x00 :: 0x12 :: 0x31 :: 0x23 :: rest)
          /\ (~ exists rest, cfg = 0x23 :: 0x31 :: 0x12 :: 0x00 :: rest))
  /\ ((length cfg < 4)%nat -> checkendian cfg = None).
Proof.
  unfold checkendian, big_endian_magic, little_endian_magic.
  rewrite slice_prefix by lia. change (Z.to_nat 4) with 4%nat.
  pose proof (firstn4_eq cfg 0x00 0x12 0x31 0x23) as Hbe.
  pose proof (firstn4_eq cfg 0x23 0x31 0x12 0x00) as Hle.
  assert (Hshort : (length cfg < 4)%nat -> forall a b c d,
                     firstn 4 cfg <> [a; b; c; d]).
  { intros Hlen a b c d Heq. apply (f_equal (@length Z)) in Heq.
    rewrite length_firstn in Heq. cbn [length] in Heq. lia. }
  destruct (bytes_eq_dec (firstn 4 cfg) [0x00; 0x12; 0x31; 0x23]) as [Eb|Nb];
    [|destruct (bytes_eq_dec (firstn 4 cfg) [0x23; 0x31; 0x12; 0x00])
        as [El|Nl]].
  - apply Hbe in Eb as Eb'. split; [tauto|].
    split; [split; [discriminate|intros H; apply Hle in H; congruence]|].
    split; [split; [discriminate|tauto]|].
    intros Hlen. destruct (Hshort Hlen _ _ _ _ Eb).
  - apply Hle in El as El'.
    split; [split; [discriminate|tauto]|].
    split; [tauto|].
    split; [split; [discriminate|tauto]|].
    intros Hlen. destruct (Hshort Hlen _ _ _ _ El).
  - split; [split; [discriminate|tauto]|].
    split; [split; [discriminate|tauto]|].
    split; [tauto|reflexivity].
Qed.

(** ** The cipher adapter *)

(** C8, as the code has it.  For a ciphertext of positive block-aligned
    length the cipher returns an output of the same length; with [n] its
    last byte, [decrypt] returns that output with exactly [n] trailing bytes
    removed when [1 <= n <= len(output)], and the empty byte string when [n]
    exceeds the length of the output. *)
Theorem decrypt_strips_padding (data : bytes) (tr : trace) :
  0 < Py.len data ->
  Py.len data mod 16 = 0 ->
  exists output,
    AES.cbc_decrypt RouterCrypto.schedule RouterCrypto.iv data = Some output
    /\ Py.len output = Py.len data
    /\ (1 <= last output 0 <= Py.len output ->
        exists result,
          RouterCrypto.decrypt data tr
          = (inr result, tr ++ [AesDecrypt data])
          /\ strips_exactly output result
          /\ Py.len result = Py.len output - last output 0)
    /\ (Py.len output < last output 0 ->
        RouterCrypto.decrypt data tr = (inr [], tr ++ [AesDecrypt data])).
Proof.
  intros Hpos Hmod.
  destruct (cbc_decrypt_aligned data Hmod) as (output & Hout & Hlen).
  exists output. split; [exact Hout|].
  split; [unfold Py.len; now rewrite Hlen|].
  assert (Hne : output <> []).
  { intros ->. unfold Py.len in Hpos. cbn in Hlen. lia. }
  rewrite decrypt_unfold, Hout.
  destruct output as [|b output']; [contradiction|].
  set (output := b :: output') in *.
  split.
  - intros Hn. rewrite slice_drop_last by lia.
    destruct (Z.leb_spec 1 (last output 0)); [|lia].
    destruct (Z.leb_spec (last output 0) (Py.len output)); [|lia].
    cbn [andb]. eexists. split; [reflexivity|].
    set (k := Z.to_nat (Py.len output - last output 0)).
    assert (Hk : (k <= length output)%nat) by (unfold Py.len in *; lia).
    split.
    + exists (skipn k output). split.
      * symmetry. apply firstn_skipn.
      * unfold Py.len in *. rewrite length_skipn. lia.
    + unfold Py.len in *. rewrite length_firstn. lia.
  - intros Hn. rewrite slice_drop_last by (unfold Py.len in *; lia).
    destruct (Z.leb_spec (last output 0) (Py.len output)); [lia|].
    now rewrite andb_false_r.
Qed.

Lemma decrypt_strips_padding_witness :
  0 < Py.len Samples.encrypted_le
  /\ Py.len Samples.encrypted_le mod 16 = 0
  /\ exists output,
       AES.cbc_decrypt RouterCrypto.schedule RouterCrypto.iv
                       Samples.encrypted_le = Some output
       /\ Py.len output = Py.len Samples.encrypted_le
       /\ (1 <= last output 0 <= Py.len output ->
           exists result,
             RouterCrypto.decrypt Samples.encrypted_le []
             = (inr result, [] ++ [AesDecrypt Samples.encrypted_le])
             /\ strips_exactly output result
             /\ Py.len result = Py.len output - last output 0)
       /\ (Py.len output < last output 0 ->
           RouterCrypto.decrypt Samples.encrypted_le []
           = (inr [], [] ++ [AesDecrypt Samples.encrypted_le])).
Proof.
  split; [reflexivity|]. split; [reflexivity|].
  apply (decrypt_strips_padding Samples.encrypted_le []); reflexivity.
Defined.

(** C8 as stated fails: the block of sixteen zero bytes decrypts to an
    output whose last byte is 35, more than the sixteen bytes there are.
    [decrypt] returns the empty string, whose length is not [16 - 35], and
    35 bytes were not removed. *)
Lemma decrypt_strips_padding_counterexample :
  let data := repeat 0 16 in
  let output :=
    [94; 213; 154; 113; 222; 148; 92; 40; 196; 55; 75; 202; 88; 88; 169; 35] in
  Py.len data = 16
  /\ AES.cbc_decrypt RouterCrypto.schedule RouterCrypto.iv data = Some output
  /\ RouterCrypto.decrypt data [] = (inr [], [AesDecrypt data])
  /\ last output 0 = 35
  /\ Py.len [] <> Py.len output - last output 0
  /\ ~ strips_exactly output [].
Proof.
  cbv zeta. split; [reflexivity|]. split; [vm_compute; reflexivity|].
  split; [vm_compute; reflexivity|]. split; [reflexivity|].
  split; [vm_compute; discriminate|].
  intros (removed & Heq & Hlen). cbn [app] in Heq. subst removed.
  vm_compute in Hlen. discriminate.
Qed.

(** A last byte of 0 is the remaining case: the slice [output[:-0]] is
    [output[:0]], so everything is dropped rather than nothing. *)
Lemma decrypt_zero_pad_byte (data output : bytes) (tr : trace) :
  AES.cbc_decrypt RouterCrypto.schedule RouterCrypto.iv data = Some output ->
  output <> [] ->
  last output 0 = 0 ->
  RouterCrypto.decrypt data tr = (inr [], tr ++ [AesDecrypt data]).
Proof.
  intros Hout Hne H0. rewrite decrypt_unfold, Hout.
  destruct output as [|b output']; [contradiction|].
  rewrite H0. reflexivity.
Qed.

Example decrypt_zero_pad_sample :
  AES.cbc_decrypt RouterCrypto.schedule RouterCrypto.iv
                  Samples.encrypted_zero_pad
  = Some (big_endian_magic ++ repeat 0 12)
  /\ RouterCrypto.decrypt Samples.encrypted_zero_pad []
     = (inr [], [AesDecrypt Samples.encrypted_zero_pad]).
Proof. split; vm_compute; reflexivity. Qed.

(** C10. On the empty byte string the cipher itself returns the empty
    output, and reading its last byte raises [IndexError]: [decrypt] returns
    no plaintext. *)
Theorem decrypt_empty_faults (tr : trace) :
  AES.cbc_decrypt RouterCrypto.schedule RouterCrypto.iv [] = Some []
  /\ RouterCrypto.decrypt [] tr = (inl IndexError, tr ++ [AesDecrypt []])
  /\ faults (RouterCrypto.decrypt [] tr).
Proof.
  split; [reflexivity|].
  rewrite decrypt_unfold. change (AES.cbc_decrypt _ _ []) with (Some (@nil Z)).
  split; [reflexivity|exact I].
Qed.

(** [decrypt] raises in two situations only: the cipher refuses unaligned
    data, or its output is empty and has no last byte.  A pad byte that is
    not a valid PKCS#7 length is never an error. *)
Lemma decrypt_raises_only (data : bytes) (tr tr' : trace) (e : exn) :
  RouterCrypto.decrypt data tr = (inl e, tr') ->
  (e = ValueError /\ Py.len data mod 16 <> 0) \/ (e = IndexError /\ data = []).
Proof.
  rewrite decrypt_unfold.
  destruct (Z.eq_dec (Py.len data mod 16) 0) as [Hal|Hun].
  - destruct (cbc_decrypt_aligned data Hal) as (output & -> & Hlen).
    destruct output as [|b output]; [|discriminate].
    intros H. injection H as <- _. right. split; [reflexivity|].
    destruct data; [reflexivity|discriminate].
  - rewrite (cbc_decrypt_unaligned data Hun). intros H. injection H as <- _.
    left. split; [reflexivity|exact Hun].
Qed.

(** ** The decryption check *)

Lemma decryption_check_plain (raw : bytes) (be : bool) (tr : trace) :
  checkendian raw = Some be ->
  decryption_check raw tr = (inr (raw, be, false), tr ++ [Print MsgUnencrypted]).
Proof. intros H. unfold decryption_check. now rewrite H. Qed.

(** With no magic in the raw bytes, the outcome is decided by [decrypt] and
    by the magic of what it returns. *)
Lemma decryption_check_no_magic (raw : bytes) (tr : trace) :
  checkendian raw = None ->
  decryption_check raw tr
  = match RouterCrypto.decrypt raw tr with
    | (inl _, tr') => (inl (SystemExit 1), tr' ++ [Print MsgInvalidCfg])
    | (inr decrypted, tr') =>
        match checkendian decrypted with
        | None => (inl (SystemExit 1), tr' ++ [Print MsgInvalidCfg])
        | Some be => (inr (decrypted, be, true), tr' ++ [Print MsgEncrypted])
        end
    end.
Proof.
  intros H. unfold decryption_check. rewrite H. clear H.
  unfold bind at 1. unfold try_except. unfold bind at 1.
  rewrite decrypt_unfold.
  destruct (AES.cbc_decrypt _ _ raw) as [[|b output]|]; cbn [is_Exception];
    try reflexivity.
  unfold ret at 1. cbn [snd fst].
  destruct (checkendian _); reflexivity.
Qed.

(** C4, as the code has it.  When the raw bytes carry neither magic, every
    exception raised by [decrypt] ends in the "Invalid cfg file/magic"
    report and exit status 1 (the script's unrecognised-format failure); in
    particular a length that is not a multiple of 16 makes the cipher raise
    and takes that path, and no exception of the cipher ever leaves the
    check.  [decrypt] raises in two cases only, an unaligned length and the
    empty input.  A malformed padding byte is not one of them: on every
    non-empty aligned input [decrypt] returns, and then the check looks at
    nothing but the magic of what was returned, accepting the file as
    encrypted when there is one. *)
Theorem decryption_check_swallows_cipher_errors (raw : bytes) (tr : trace) :
  checkendian raw = None ->
  (forall e tr',
      RouterCrypto.decrypt raw tr = (inl e, tr') ->
      decryption_check raw tr
      = (inl (SystemExit 1), tr' ++ [Print MsgInvalidCfg]))
  /\ (Py.len raw mod 16 <> 0 ->
      RouterCrypto.decrypt raw tr = (inl ValueError, tr ++ [AesDecrypt raw])
      /\ decryption_check raw tr
         = (inl (SystemExit 1), tr ++ [AesDecrypt raw; Print MsgInvalidCfg]))
  /\ (forall e, fst (decryption_check raw tr) = inl e -> e = SystemExit 1)
  /\ (forall e tr',
         RouterCrypto.decrypt raw tr = (inl e, tr') ->
         (e = ValueError /\ Py.len raw mod 16 <> 0)
         \/ (e = IndexError /\ raw = []))
  /\ (0 < Py.len raw -> Py.len raw mod 16 = 0 ->
      exists decrypted,
        RouterCrypto.decrypt raw tr = (inr decrypted, tr ++ [AesDecrypt raw]))
  /\ (forall decrypted tr',
         RouterCrypto.decrypt raw tr = (inr decrypted, tr') ->
         decryption_check raw tr
         = match checkendian decrypted with
           | Some be =>
               (inr (decrypted, be, true), tr' ++ [Print MsgEncrypted])
           | None => (inl (SystemExit 1), tr' ++ [Print MsgInvalidCfg])
           end).
Proof.
  intros Hmagic. rewrite (decryption_check_no_magic raw tr Hmagic).
  split; [|split; [|split; [|split; [|split]]]].
  - intros e tr' ->. reflexivity.
  - intros Hlen. rewrite decrypt_unfold, (cbc_decrypt_unaligned raw Hlen).
    rewrite <- app_assoc. split; reflexivity.
  - intros e. destruct (RouterCrypto.decrypt raw tr) as [[e'|decrypted] tr'].
    + cbn. congruence.
    + destruct (checkendian decrypted); cbn; congruence.
  - intros e tr'. apply decrypt_raises_only.
  - intros Hpos Hal. rewrite decrypt_unfold.
    destruct (cbc_decrypt_aligned raw Hal) as (output & -> & Hlen).
    destruct output as [|b output].
    + unfold Py.len in Hpos. cbn [length] in Hlen. lia.
    + eexists. reflexivity.
  - intros decrypted tr' ->. destruct (checkendian decrypted); reflexivity.
Qed.

Lemma decryption_check_swallows_cipher_errors_witness :
  checkendian [1; 2; 3; 4; 5] = None
  /\ Py.len [1; 2; 3; 4; 5] mod 16 <> 0
  /\ RouterCrypto.decrypt [1; 2; 3; 4; 5] []
     = (inl ValueError, [AesDecrypt [1; 2; 3; 4; 5]])
  /\ decryption_check [1; 2; 3; 4; 5] []
     = (inl (SystemExit 1),
        [AesDecrypt [1; 2; 3; 4; 5]; Print MsgInvalidCfg]).
Proof.
  assert (Hmagic : checkendian [1; 2; 3; 4; 5] = None) by reflexivity.
  assert (Hlen : Py.len [1; 2; 3; 4; 5] mod 16 <> 0) by discriminate.
  split; [exact Hmagic|]. split; [exact Hlen|].
  exact (proj1 (proj2 (decryption_check_swallows_cipher_errors
                         [1; 2; 3; 4; 5] [] Hmagic)) Hlen).
Defined.

(** C4 as stated fails for its second example.  Two files without a magic
    whose decryption does not end in a PKCS#7 padding, the first with the
    last four bytes 04 04 05 04, the second with seventeen bytes 11: for
    both [decrypt] raises nothing, and the check accepts the file as an
    encrypted one instead of reporting an unrecognised format. *)
Lemma decryption_check_malformed_padding_counterexample :
  (checkendian Samples.tampered_padding = None
   /\ AES.cbc_decrypt RouterCrypto.schedule RouterCrypto.iv
                      Samples.tampered_padding
      = Some (Samples.plain_le ++ [4; 4; 5; 4])
   /\ pkcs7_padded (Samples.plain_le ++ [4; 4; 5; 4]) = false
   /\ RouterCrypto.decrypt Samples.tampered_padding []
      = (inr Samples.plain_le, [AesDecrypt Samples.tampered_padding])
   /\ decryption_check Samples.tampered_padding []
      = (inr (Samples.plain_le, false, true),
         [AesDecrypt Samples.tampered_padding; Print MsgEncrypted]))
  /\ (checkendian Samples.oversized_padding = None
      /\ AES.cbc_decrypt RouterCrypto.schedule RouterCrypto.iv
                         Samples.oversized_padding
         = Some (Samples.plain_le ++ repeat 0xAA 3 ++ repeat 17 17)
      /\ pkcs7_padded (Samples.plain_le ++ repeat 0xAA 3 ++ repeat 17 17)
         = false
      /\ RouterCrypto.decrypt Samples.oversized_padding []
         = (inr (Samples.plain_le ++ repeat 0xAA 3),
            [AesDecrypt Samples.oversized_padding])
      /\ decryption_check Samples.oversized_padding []
         = (inr (Samples.plain_le ++ repeat 0xAA 3, false, true),
            [AesDecrypt Samples.oversized_padding; Print MsgEncrypted])).
Proof. repeat split; vm_compute; reflexivity. Qed.

(** The same plaintext with a well-formed padding passes the predicate. *)
Example pkcs7_padded_sample :
  pkcs7_padded (Samples.plain_le ++ [4; 4; 4; 4]) = true
  /\ pkcs7_padded (repeat 16 16) = true
  /\ pkcs7_padded [] = false.
Proof. repeat split. Qed.

(** The empty file takes the same path through the [IndexError]. *)
Example decryption_check_empty :
  decryption_check [] []
  = (inl (SystemExit 1), [AesDecrypt []; Print MsgInvalidCfg]).
Proof. reflexivity. Qed.

(** A file whose decryption carries a zero pad byte is reported as
    unrecognised although the raw decryption starts with the magic. *)
Example decryption_check_zero_pad :
  decryption_check Samples.encrypted_zero_pad []
  = (inl (SystemExit 1),
     [AesDecrypt Samples.encrypted_zero_pad; Print MsgInvalidCfg]).
Proof. vm_compute. reflexivity. Qed.

Example decryption_check_encrypted_sample :
  decryption_check Samples.encrypted_le []
  = (inr (Samples.plain_le, false, true),
     [AesDecrypt Samples.encrypted_le; Print MsgEncrypted]).
Proof. vm_compute. reflexivity. Qed.

(** C9. When [checkendian] recognises the raw bytes, the check hands back
    those very bytes with the detected endianness and [encrypted_cfg] still
    false, and the cipher is not called. *)
Theorem decryption_check_plaintext (raw : bytes) (be : bool) (tr : trace) :
  checkendian raw = Some be ->
  decryption_check raw tr = (inr (raw, be, false), tr ++ [Print MsgUnencrypted])
  /\ aes_calls (snd (decryption_check raw tr)) = aes_calls tr.
Proof.
  intros H. rewrite (decryption_check_plain raw be tr H). split; [reflexivity|].
  cbn [snd]. unfold aes_calls. rewrite flat_map_app. cbn. apply app_nil_r.
Qed.

Lemma decryption_check_plaintext_witness :
  checkendian Samples.plain_be = Some true
  /\ decryption_check Samples.plain_be []
     = (inr (Samples.plain_be, true, false), [] ++ [Print MsgUnencrypted])
  /\ aes_calls (snd (decryption_check Samples.plain_be [])) = aes_calls [].
Proof.
  split; [reflexivity|].
  apply (decryption_check_plaintext Samples.plain_be true []). reflexivity.
Defined.

(** ** Header extraction *)

Lemma u32_wrong_size (be : bool) (val : bytes) (tr : trace) :
  length val <> 4%nat -> u32 be val tr = (inl StructError, tr).
Proof.
  intros H. destruct val as [|b0 [|b1 [|b2 [|b3 [|b4 val]]]]];
    try reflexivity.
  now destruct H.
Qed.

Lemma firstn4_skipn (l : bytes) :
  forall a : nat,
    (a + 4 <= length l)%nat ->
    firstn 4 (skipn a l)
    = [nth (a + 0) l 0; nth (a + 1) l 0; nth (a + 2) l 0; nth (a + 3) l 0].
Proof.
  induction l as [|x l IH]; intros a Ha; [cbn in Ha; lia|].
  destruct a as [|a].
  - destruct l as [|x1 [|x2 [|x3 l]]]; cbn in Ha; try lia. reflexivity.
  - cbn [skipn Nat.add nth]. apply IH. cbn in Ha. lia.
Qed.

Lemma u32_field (be : bool) (l : bytes) (a : nat) (tr : trace) :
  (a + 4 <= length l)%nat ->
  u32 be (Py.slice l (Some (Z.of_nat a)) (Some (Z.of_nat a + 4))) tr
  = (inr (word_at be l a), tr).
Proof.
  intros Ha. rewrite slice_between by lia.
  replace (Z.to_nat (Z.of_nat a + 4 - Z.of_nat a)) with 4%nat by lia.
  rewrite Nat2Z.id, firstn4_skipn by exact Ha. reflexivity.
Qed.

Lemma u32_field_short (be : bool) (l : bytes) (a : nat) (tr : trace) :
  (length l < a + 4)%nat ->
  u32 be (Py.slice l (Some (Z.of_nat a)) (Some (Z.of_nat a + 4))) tr
  = (inl StructError, tr).
Proof.
  intros Ha. apply u32_wrong_size. rewrite slice_between by lia.
  rewrite length_firstn, length_skipn. lia.
Qed.

Lemma nth_is_byte (l : bytes) (i : nat) : is_bytes l -> is_byte (nth i l 0).
Proof.
  intros H. destruct (Nat.lt_ge_cases i (length l)) as [Hi|Hi].
  - unfold is_bytes in H. rewrite Forall_forall in H. apply H, nth_In, Hi.
  - rewrite nth_overflow by exact Hi. unfold is_byte. lia.
Qed.

Lemma word_at_range (be : bool) (l : bytes) (a : nat) :
  is_bytes l -> 0 <= word_at be l a < 2 ^ 32.
Proof.
  intros H. unfold word_at.
  pose proof (nth_is_byte l (a + 0) H). pose proof (nth_is_byte l (a + 1) H).
  pose proof (nth_is_byte l (a + 2) H). pose proof (nth_is_byte l (a + 3) H).
  unfold is_byte in *. destruct be; lia.
Qed.

(** With at least 0x14 bytes every field is read and the payload is whatever
    the slice [cfg_data[0x14 : 0x14 + data_size]] holds. *)
Lemma extract_header_long (be : bool) (blob : bytes) (tr : trace) :
  0x14 <= Py.len blob ->
  extract_header be blob tr
  = (inr (mk_header (word_at be blob 16) (word_at be blob 4)
                    (Py.slice blob (Some 0x14)
                              (Some (0x14 + word_at be blob 4)))
                    (word_at be blob 8)),
     tr ++ [Print (MsgFwMagic (word_at be blob 16))]).
Proof.
  unfold Py.len. intros Hlen. unfold extract_header.
  unfold bind at 1. rewrite (u32_field be blob 16) by lia.
  unfold bind at 1. rewrite (u32_field be blob 4) by lia.
  unfold bind at 1. rewrite (u32_field be blob 8) by lia.
  reflexivity.
Qed.




Lemma extract_header_short (be : bool) (blob : bytes) (tr : trace) :
  Py.len blob < 0x14 -> extract_header be blob tr = (inl StructError, tr).
Proof.
  unfold Py.len. intros Hlen. unfold extract_header. unfold bind at 1.
  rewrite (u32_field_short be blob 16) by lia. reflexivity.
Qed.




(** ** The checksum gate *)

Example crc32_check_value :
  Binascii.crc32 [0x31; 0x32; 0x33; 0x34; 0x35; 0x36; 0x37; 0x38; 0x39]
  = 0xCBF43926.
Proof. reflexivity. Qed.

Lemma verify_checksum_spec (payload : bytes) (expected : Z) (tr : trace) :
  verify_checksum payload expected tr
  = if Z.land (Binascii.crc32 payload) 0xFFFFFFFF =? expected
    then (inr tt, tr ++ [Print MsgCrcPassed])
    else (inl (SystemExit 1), tr ++ [Print MsgCrcFailed]).
Proof.
  unfold verify_checksum.
  destruct (Z.land (Binascii.crc32 payload) 0xFFFFFFFF =? expected);
    reflexivity.
Qed.

Lemma zlib_calls_app (a b : trace) :
  zlib_calls (a ++ b) = zlib_calls a ++ zlib_calls b.
Proof. apply flat_map_app. Qed.

Lemma zlib_calls_snoc_print (a : trace) (m : message) :
  zlib_calls (a ++ [Print m]) = zlib_calls a.
Proof. rewrite zlib_calls_app. apply app_nil_r. Qed.

Lemma zlib_calls_snoc_aes (a : trace) (d : bytes) :
  zlib_calls (a ++ [AesDecrypt d]) = zlib_calls a.
Proof. rewrite zlib_calls_app. apply app_nil_r. Qed.

Lemma decryption_check_no_zlib (raw : bytes) (tr : trace) :
  zlib_calls (snd (decryption_check raw tr)) = zlib_calls tr.
Proof.
  destruct (checkendian raw) as [be|] eqn:Hmagic.
  - rewrite (decryption_check_plain raw be tr Hmagic). cbn [snd].
    apply zlib_calls_snoc_print.
  - rewrite (decryption_check_no_magic raw tr Hmagic), decrypt_unfold.
    destruct (AES.cbc_decrypt _ _ raw) as [[|b output]|]; cbv beta iota;
      try (cbn [snd]; rewrite zlib_calls_snoc_print;
           apply zlib_calls_snoc_aes).
    clear Hmagic. destruct (checkendian _); cbn [snd];
      rewrite zlib_calls_snoc_print; apply zlib_calls_snoc_aes.
Qed.

Lemma extract_header_no_zlib (be : bool) (blob : bytes) (tr : trace) :
  zlib_calls (snd (extract_header be blob tr)) = zlib_calls tr.
Proof.
  destruct (Z.le_gt_cases 0x14 (Py.len blob)) as [Hlen|Hlen].
  - rewrite (extract_header_long be blob tr Hlen). cbn [snd].
    apply zlib_calls_snoc_print.
  - rewrite extract_header_short by lia. reflexivity.
Qed.

Section Pipeline.

Variable zlib_decompress : bytes -> Z -> option bytes.

(** The run up to and including header extraction, once both stages are
    known to have returned. *)
Lemma unpack_after_header (cfg_data cfg : bytes) (be enc : bool)
      (h : header) (tr tr1 tr2 : trace) :
  decryption_check cfg_data (tr ++ [Print MsgStart])
  = (inr (cfg, be, enc), tr1) ->
  extract_header be cfg
                 (tr1 ++ [Print (if be then MsgBigEndian
                                 else MsgLittleEndian)])
  = (inr h, tr2) ->
  unpack zlib_decompress cfg_data tr
  = (verify_checksum (compressed h) (checksum h) ;;
     xml_data <- decompress zlib_decompress (compressed h) ;;
     emit (WriteFile xml_data) ;;
     print MsgUnpacked ;;
     print MsgRepackHeading ;;
     print (MsgRepack be enc (fw_magic h)) ;;
     ret (mk_unpacked xml_data be enc (fw_magic h))) tr2.
Proof.
  intros Hcheck Hhead. unfold unpack.
  unfold bind at 1. unfold print at 1, emit at 1.
  unfold bind at 1. rewrite Hcheck.
  unfold bind at 1.
  replace (log_endianness be tr1)
    with (@inr exn unit tt,
          tr1 ++ [Print (if be then MsgBigEndian else MsgLittleEndian)])
    by (destruct be; reflexivity).
  unfold bind at 1. rewrite Hhead. reflexivity.
Qed.

(** C3. Once the header is extracted, the checksum stage lets the run
    continue exactly when the CRC-32 of the payload slice, masked to 32
    bits, equals the checksum field.  On a mismatch it prints the
    "CRC32 checksum failed" report and exits with status 1, and the whole
    run ends there: no call to [zlib.decompress] has been made. *)
Theorem checksum_gate (cfg_data cfg : bytes) (be enc : bool)
        (h : header) (tr tr1 tr2 : trace) :
  decryption_check cfg_data (tr ++ [Print MsgStart])
  = (inr (cfg, be, enc), tr1) ->
  extract_header be cfg
                 (tr1 ++ [Print (if be then MsgBigEndian
                                 else MsgLittleEndian)])
  = (inr h, tr2) ->
  (verify_checksum (compressed h) (checksum h) tr2
   = (inr tt, tr2 ++ [Print MsgCrcPassed])
   <-> Z.land (Binascii.crc32 (compressed h)) 0xFFFFFFFF = checksum h)
  /\ (Z.land (Binascii.crc32 (compressed h)) 0xFFFFFFFF <> checksum h ->
      verify_checksum (compressed h) (checksum h) tr2
      = (inl (SystemExit 1), tr2 ++ [Print MsgCrcFailed])
      /\ unpack zlib_decompress cfg_data tr
         = (inl (SystemExit 1), tr2 ++ [Print MsgCrcFailed])
      /\ zlib_calls (snd (unpack zlib_decompress cfg_data tr))
         = zlib_calls tr).
Proof.
  intros Hcheck Hhead.
  pose proof (unpack_after_header _ _ _ _ _ _ _ _ Hcheck Hhead) as Hrun.
  unfold bind at 1 in Hrun.
  rewrite verify_checksum_spec in Hrun. rewrite verify_checksum_spec.
  destruct (Z.eqb_spec (Z.land (Binascii.crc32 (compressed h)) 0xFFFFFFFF)
                       (checksum h)) as [Heq|Hne].
  - split; [tauto|]. intros Hne. contradiction.
  - split; [split; [discriminate|contradiction]|].
    intros _. split; [reflexivity|]. rewrite Hrun. split; [reflexivity|].
    cbn [snd]. rewrite zlib_calls_snoc_print.
    pose proof (extract_header_no_zlib
                  be cfg (tr1 ++ [Print (if be then MsgBigEndian
                                         else MsgLittleEndian)])) as H2.
    rewrite Hhead in H2. cbn [snd] in H2. rewrite H2.
    rewrite zlib_calls_snoc_print.
    pose proof (decryption_check_no_zlib cfg_data (tr ++ [Print MsgStart]))
      as H1.
    rewrite Hcheck in H1. cbn [snd] in H1. rewrite H1.
    apply zlib_calls_snoc_print.
Qed.

End Pipeline.

Lemma checksum_gate_witness :
  let h := mk_header 0x4F4E5431 0x18 Samples.payload 0 in
  let tr2 := [Print MsgStart; Print MsgUnencrypted; Print MsgBigEndian;
              Print (MsgFwMagic 0x4F4E5431)] in
  decryption_check Samples.bad_checksum ([] ++ [Print MsgStart])
  = (inr (Samples.bad_checksum, true, false),
     [Print MsgStart; Print MsgUnencrypted])
  /\ extract_header true Samples.bad_checksum
                    ([Print MsgStart; Print MsgUnencrypted]
                       ++ [Print MsgBigEndian])
     = (inr h, tr2)
  /\ Z.land (Binascii.crc32 (compressed h)) 0xFFFFFFFF <> checksum h
  /\ verify_checksum (compressed h) (checksum h) tr2
     = (inl (SystemExit 1), tr2 ++ [Print MsgCrcFailed])
  /\ unpack Samples.stored_inflate Samples.bad_checksum []
     = (inl (SystemExit 1), tr2 ++ [Print MsgCrcFailed])
  /\ zlib_calls (snd (unpack Samples.stored_inflate Samples.bad_checksum []))
     = zlib_calls [].
Proof.
  cbv zeta.
  assert (H1 : decryption_check Samples.bad_checksum ([] ++ [Print MsgStart])
               = (inr (Samples.bad_checksum, true, false),
                  [Print MsgStart; Print MsgUnencrypted]))
    by reflexivity.
  assert (H2 : extract_header true Samples.bad_checksum
                 ([Print MsgStart; Print MsgUnencrypted]
                    ++ [Print MsgBigEndian])
               = (inr (mk_header 0x4F4E5431 0x18 Samples.payload 0),
                  [Print MsgStart; Print MsgUnencrypted; Print MsgBigEndian;
                   Print (MsgFwMagic 0x4F4E5431)]))
    by reflexivity.
  assert (H3 : Z.land (Binascii.crc32 Samples.payload) 0xFFFFFFFF <> 0)
    by (vm_compute; discriminate).
  split; [exact H1|]. split; [exact H2|]. split; [exact H3|].
  exact (proj2 (checksum_gate Samples.stored_inflate Samples.bad_checksum
                              Samples.bad_checksum true false _ [] _ _ H1 H2)
               H3).
Defined.

(** ** The decompression search *)

Section Search.

Variable zlib_decompress : bytes -> Z -> option bytes.
Variable payload : bytes.

Implicit Types (c : Z * Z) (cands pre post tried : list (Z * Z)).

Lemma failsb_Forall cands :
  forallb (failsb zlib_decompress payload) cands = true ->
  Forall (fails zlib_decompress payload) cands.
Proof.
  intros H. apply Forall_forall. intros c Hc.
  rewrite forallb_forall in H. specialize (H c Hc).
  unfold failsb in H. unfold fails.
  destruct (outcome zlib_decompress payload c); [discriminate|reflexivity].
Qed.

Lemma search_first (pre post : list (Z * Z)) (c : Z * Z) (out : bytes) :
  Forall (fails zlib_decompress payload) pre ->
  outcome zlib_decompress payload c = Some out ->
  search zlib_decompress payload (pre ++ c :: post) = Some (pre ++ [c], c, out).
Proof.
  intros Hpre Hc. induction Hpre as [|c' pre Hc' Hpre IH]; cbn.
  - now rewrite Hc.
  - now rewrite Hc', IH.
Qed.

Lemma search_none (cands : list (Z * Z)) :
  Forall (fails zlib_decompress payload) cands -> search zlib_decompress payload cands = None.
Proof.
  intros H. induction H as [|c cands Hc H IH]; cbn; [reflexivity|].
  now rewrite Hc, IH.
Qed.

Lemma search_app (l1 l2 : list (Z * Z)) :
  search zlib_decompress payload (l1 ++ l2)
  = match search zlib_decompress payload l1 with
    | Some r => Some r
    | None =>
        match search zlib_decompress payload l2 with
        | Some (tried, winner, out) => Some (l1 ++ tried, winner, out)
        | None => None
        end
    end.
Proof.
  induction l1 as [|c l1 IH]; cbn.
  - destruct (search zlib_decompress payload l2) as [[[tried winner] out]|]; reflexivity.
  - destruct (outcome zlib_decompress payload c); [reflexivity|]. rewrite IH.
    destruct (search zlib_decompress payload l1) as [[[tried winner] out]|]; [reflexivity|].
    destruct (search zlib_decompress payload l2) as [[[tried winner] out]|]; reflexivity.
Qed.

Lemma search_truthy cands :
  forall tried c out,
    search zlib_decompress payload cands = Some (tried, c, out) ->
    Py.truthy out = true.
Proof.
  induction cands as [|c' cands IH]; intros tried c out; cbn;
    [discriminate|].
  destruct (outcome zlib_decompress payload c') as [out'|] eqn:Hc'.
  - intros H. injection H as _ _ ->. unfold outcome in Hc'.
    destruct (zlib_decompress _ _) as [o|]; [|discriminate].
    destruct (Py.truthy o) eqn:Ht; [|discriminate]. congruence.
  - destruct (search zlib_decompress payload cands)
      as [[[tried' winner] out']|]; [|discriminate].
    intros H. injection H as _ _ ->. eapply IH. reflexivity.
Qed.

(** One pass through the body of the inner loop. *)
Lemma attempt_spec (offset wbits : Z) (x : option bytes) (tr : trace) :
  attempt zlib_decompress offset (Py.slice payload (Some offset) None)
          wbits x tr
  = match outcome zlib_decompress payload (offset, wbits) with
    | Some out =>
        (inr (Some out, true),
         tr ++ [attempt_event payload (offset, wbits); Print (MsgSuccess offset wbits)])
    | None =>
        (inr (match zlib_decompress
                      (Py.slice payload (Some offset) None) wbits with
              | Some out => Some out
              | None => x
              end, false),
         tr ++ [attempt_event payload (offset, wbits)])
    end.
Proof.
  unfold attempt, try_except, zlib_call, outcome,
    attempt_event, candidate_input.
  cbn [fst snd]. unfold bind at 1. unfold bind at 1. unfold emit at 1.
  destruct (zlib_decompress _ wbits) as [out|]; [|reflexivity].
  unfold ret at 1. destruct (Py.truthy out); [|reflexivity].
  unfold bind, print, emit, ret. now rewrite <- app_assoc.
Qed.

Lemma attempt_keeps_falsy (offset wbits : Z) (x : option bytes) :
  outcome zlib_decompress payload (offset, wbits) = None ->
  Py.truthy_opt x = false ->
  Py.truthy_opt
    match zlib_decompress (Py.slice payload (Some offset) None) wbits with
    | Some out => Some out
    | None => x
    end = false.
Proof.
  unfold outcome, candidate_input. cbn [fst snd].
  destruct (zlib_decompress _ wbits) as [out|]; [|auto].
  cbn [Py.truthy_opt]. destruct (Py.truthy out); [discriminate|auto].
Qed.

Lemma inner_loop_cons (offset w : Z) (ws : list Z) (x : option bytes)
      (tr : trace) :
  inner_loop zlib_decompress offset (Py.slice payload (Some offset) None)
             (w :: ws) x tr
  = match outcome zlib_decompress payload (offset, w) with
    | Some out =>
        (inr (Some out),
         tr ++ [attempt_event payload (offset, w);
                Print (MsgSuccess offset w)])
    | None =>
        inner_loop zlib_decompress offset
                   (Py.slice payload (Some offset) None) ws
                   match zlib_decompress
                           (Py.slice payload (Some offset) None) w with
                   | Some out => Some out
                   | None => x
                   end
                   (tr ++ [attempt_event payload (offset, w)])
    end.
Proof.
  cbn [inner_loop]. unfold bind at 1. rewrite attempt_spec.
  destruct (outcome zlib_decompress payload (offset, w)); reflexivity.
Qed.

Lemma outer_loop_cons (offset : Z) (offs : list Z) (x : option bytes)
      (tr : trace) :
  outer_loop zlib_decompress payload (offset :: offs) x tr
  = match inner_loop zlib_decompress offset
                     (Py.slice payload (Some offset) None)
                     wbits_to_try x tr with
    | (inl e, tr') => (inl e, tr')
    | (inr x', tr') =>
        if Py.truthy_opt x' then (inr x', tr')
        else outer_loop zlib_decompress payload offs x' tr'
    end.
Proof.
  cbn [outer_loop]. unfold bind at 1.
  destruct (inner_loop _ _ _ _ _ _) as [[e|x'] tr']; [reflexivity|].
  destruct (Py.truthy_opt x'); reflexivity.
Qed.

(** The inner loop, entered with a falsy [xml_data], finds the first
    winner among the candidates of its offset, or leaves [xml_data]
    falsy after trying them all. *)
Lemma inner_loop_spec (offset : Z) (ws : list Z) :
  forall (x : option bytes) (tr : trace),
    Py.truthy_opt x = false ->
    match search zlib_decompress payload (map (fun w => (offset, w)) ws) with
    | Some (tried, c, out) =>
        inner_loop zlib_decompress offset
                   (Py.slice payload (Some offset) None) ws x tr
        = (inr (Some out),
           tr ++ map (attempt_event payload) tried
              ++ [Print (MsgSuccess (fst c) (snd c))])
    | None =>
        exists x',
          Py.truthy_opt x' = false
          /\ inner_loop zlib_decompress offset
                        (Py.slice payload (Some offset) None) ws x tr
             = (inr x',
                tr ++ map (attempt_event payload)
                          (map (fun w => (offset, w)) ws))
    end.
Proof.
  induction ws as [|w ws IH]; intros x tr Hx.
  - cbn. exists x. now rewrite app_nil_r.
  - cbn [map search]. rewrite inner_loop_cons.
    destruct (outcome zlib_decompress payload (offset, w)) as [out|] eqn:Hw.
    + reflexivity.
    + specialize (IH _ (tr ++ [attempt_event payload (offset, w)])
                     (attempt_keeps_falsy offset w x Hw Hx)).
      destruct (search zlib_decompress payload
                       (map (fun w0 => (offset, w0)) ws))
        as [[[tried c] out]|].
      * rewrite IH. cbn [map]. now rewrite <- app_assoc.
      * destruct IH as (x' & Hx' & IH). exists x'. split; [exact Hx'|].
        rewrite IH. cbn [map]. now rewrite <- app_assoc.
Qed.

Lemma outer_loop_spec (offs : list Z) :
  forall (x : option bytes) (tr : trace),
    Py.truthy_opt x = false ->
    match search zlib_decompress payload (list_prod offs wbits_to_try) with
    | Some (tried, c, out) =>
        outer_loop zlib_decompress payload offs x tr
        = (inr (Some out),
           tr ++ map (attempt_event payload) tried
              ++ [Print (MsgSuccess (fst c) (snd c))])
    | None =>
        exists x',
          Py.truthy_opt x' = false
          /\ outer_loop zlib_decompress payload offs x tr
             = (inr x',
                tr ++ map (attempt_event payload)
                          (list_prod offs wbits_to_try))
    end.
Proof.
  induction offs as [|offset offs IH]; intros x tr Hx.
  - cbn. exists x. now rewrite app_nil_r.
  - cbn [list_prod]. rewrite search_app, outer_loop_cons.
    pose proof (inner_loop_spec offset wbits_to_try x tr Hx) as Hin.
    destruct (search zlib_decompress payload
                     (map (fun w => (offset, w)) wbits_to_try))
      as [[[tried c] out]|] eqn:Hrow.
    + rewrite Hin. cbn [Py.truthy_opt].
      now rewrite (search_truthy _ _ _ _ Hrow).
    + destruct Hin as (x' & Hx' & Hin). rewrite Hin, Hx'.
      specialize (IH x' (tr ++ map (attempt_event payload)
                                   (map (fun w => (offset, w)) wbits_to_try))
                     Hx').
      destruct (search zlib_decompress payload
                       (list_prod offs wbits_to_try))
        as [[[tried c] out]|].
      * rewrite IH, map_app. now rewrite <- !app_assoc.
      * destruct IH as (x'' & Hx'' & IH). exists x''. split; [exact Hx''|].
        rewrite IH, map_app. now rewrite <- app_assoc.
Qed.

(** The two loops compute the first winner of [candidates]. *)
Lemma decompress_spec (tr : trace) :
  decompress zlib_decompress payload tr
  = match search zlib_decompress payload candidates with
    | Some (tried, c, out) =>
        (inr out,
         tr ++ map (attempt_event payload) tried ++ [Print (MsgSuccess (fst c) (snd c))])
    | None =>
        (inl (SystemExit 1),
         tr ++ map (attempt_event payload) candidates
            ++ [Print MsgDecompFailed; Print MsgNonDeflate])
    end.
Proof.
  unfold decompress. unfold bind at 1.
  pose proof (outer_loop_spec offsets None tr eq_refl) as Hout.
  fold candidates in Hout.
  destruct (search zlib_decompress payload candidates) as [[[tried c] out]|] eqn:Hs.
  - rewrite Hout. cbn [Py.truthy_opt].
    now rewrite (search_truthy _ _ _ _ Hs).
  - destruct Hout as (x' & Hx' & Hout). rewrite Hout, Hx'.
    cbn [negb]. unfold bind, print, emit, sys_exit, raise.
    now rewrite <- !app_assoc.
Qed.

(** C1. The candidates are the pairs of an offset from 0, 4, 8, 12, 16
    and a [wbits] from [wbits_to_try], offsets outermost.  [decompress]
    calls zlib on them in that order.  It stops at the first candidate that
    returns a non-empty output without raising, and returns that output,
    whatever the later candidates would have given; the trace holds one
    call per candidate up to the winner, then the success line naming it.
    When every candidate raises [zlib.error] or returns empty output, all
    of them have been called in order and the run ends with the
    "Decompression failed" report and exit status 1. *)
Theorem decompress_first_success (tr : trace) :
  candidates
  = flat_map (fun offset => map (fun wbits => (offset, wbits)) wbits_to_try)
             [0; 4; 8; 12; 16]
  /\ (forall pre c post out,
         candidates = pre ++ c :: post ->
         Forall (fails zlib_decompress payload) pre ->
         outcome zlib_decompress payload c = Some out ->
         decompress zlib_decompress payload tr
         = (inr out,
            tr ++ map (attempt_event payload) (pre ++ [c])
               ++ [Print (MsgSuccess (fst c) (snd c))]))
  /\ (Forall (fails zlib_decompress payload) candidates ->
      decompress zlib_decompress payload tr
      = (inl (SystemExit 1),
         tr ++ map (attempt_event payload) candidates
            ++ [Print MsgDecompFailed; Print MsgNonDeflate])).
Proof.
  split; [reflexivity|]. split.
  - intros pre c post out Hsplit Hpre Hc.
    rewrite decompress_spec, Hsplit, (search_first pre post c out Hpre Hc).
    reflexivity.
  - intros Hall. rewrite decompress_spec, (search_none _ Hall). reflexivity.
Qed.

End Search.

Lemma decompress_first_success_witness :
  let pre := firstn 44 candidates in
  let post := skipn 45 candidates in
  candidates = pre ++ (16, -15) :: post
  /\ Forall (fails Samples.stored_inflate Samples.payload) pre
  /\ outcome Samples.stored_inflate Samples.payload (16, -15)
     = Some [0x61; 0x62; 0x63]
  /\ outcome Samples.stored_inflate Samples.payload (16, -14)
     = Some [0x61; 0x62; 0x63]
  /\ decompress Samples.stored_inflate Samples.payload []
     = (inr [0x61; 0x62; 0x63],
        [] ++ map (attempt_event Samples.payload) (pre ++ [(16, -15)])
           ++ [Print (MsgSuccess 16 (-15))])
  /\ Forall (fails Samples.reject_all Samples.payload) candidates
  /\ decompress Samples.reject_all Samples.payload []
     = (inl (SystemExit 1),
        [] ++ map (attempt_event Samples.payload) candidates
           ++ [Print MsgDecompFailed; Print MsgNonDeflate]).
Proof.
  cbv zeta.
  assert (Hsplit : candidates
                   = firstn 44 candidates ++ (16, -15) :: skipn 45 candidates)
    by reflexivity.
  assert (Hpre : Forall (fails Samples.stored_inflate Samples.payload)
                        (firstn 44 candidates))
    by (apply failsb_Forall; vm_compute; reflexivity).
  assert (Hwin : outcome Samples.stored_inflate Samples.payload (16, -15)
                 = Some [0x61; 0x62; 0x63]) by reflexivity.
  assert (Hall : Forall (fails Samples.reject_all Samples.payload) candidates)
    by (apply failsb_Forall; vm_compute; reflexivity).
  split; [exact Hsplit|]. split; [exact Hpre|]. split; [exact Hwin|].
  split; [reflexivity|].
  split.
  - exact (proj1 (proj2 (decompress_first_success
                           Samples.stored_inflate Samples.payload []))
                 _ _ _ _ Hsplit Hpre Hwin).
  - split; [exact Hall|].
    exact (proj2 (proj2 (decompress_first_success
                           Samples.reject_all Samples.payload []))
                 Hall).
Defined.

(** ** The list of window parameters *)

(** C2, as the code has it.  The inner list holds the eight raw-Deflate
    settings from the largest window (2^15, [wbits] -15) down to the
    smallest (2^8, [wbits] -8), then the zlib-wrapped setting 15, then the
    gzip-wrapped setting 31, then 47, which accepts either wrapper. *)
Theorem wbits_to_try_order :
  wbits_to_try = [-15; -14; -13; -12; -11; -10; -9; -8; 15; 31; 47]
  /\ map wbits_meaning wbits_to_try
     = [Some (RawDeflate, 15); Some (RawDeflate, 14); Some (RawDeflate, 13);
        Some (RawDeflate, 12); Some (RawDeflate, 11); Some (RawDeflate, 10);
        Some (RawDeflate, 9); Some (RawDeflate, 8);
        Some (ZlibWrapped, 15); Some (GzipWrapped, 15); Some (AutoDetect, 15)]
  /\ SpecWords.raw_prefix_windows wbits_to_try
     = [32768; 16384; 8192; 4096; 2048; 1024; 512; 256].
Proof. repeat split. Qed.

(** C2 as stated fails: the list is not the raw windows in ascending size
    followed by the zlib and gzip settings.  Its first entry is the largest
    raw window, and its last entry is neither of the two wrappers named but
    the setting that detects the wrapper. *)
Lemma wbits_to_try_order_counterexample :
  SpecWords.smallest_to_largest_then_zlib_gzip wbits_to_try = false
  /\ SpecWords.smallest_to_largest_then_zlib_gzip SpecWords.inner_candidates
     = true
  /\ wbits_to_try <> SpecWords.inner_candidates
  /\ (hd 0 wbits_to_try = -15 /\ wbits_meaning (-15) = Some (RawDeflate, 15))
  /\ (last wbits_to_try 0 = 47 /\ wbits_meaning 47 = Some (AutoDetect, 15)).
Proof.
  split; [reflexivity|]. split; [reflexivity|]. split; [discriminate|].
  repeat split.
Qed.

(** ** Whole runs *)

(** A plaintext file too short for a header makes the run abort on the
    uncaught [struct.error], whatever zlib would do. *)
Lemma unpack_short_plaintext_faults
      (zlib_decompress : bytes -> Z -> option bytes)
      (blob : bytes) (be : bool) (tr : trace) :
  checkendian blob = Some be ->
  Py.len blob < 0x14 ->
  unpack zlib_decompress blob tr
  = (inl StructError,
     tr ++ [Print MsgStart; Print MsgUnencrypted;
            Print (if be then MsgBigEndian else MsgLittleEndian)]).
Proof.
  intros Hmagic Hlen. unfold unpack.
  unfold bind at 1. unfold print at 1, emit at 1.
  unfold bind at 1. rewrite (decryption_check_plain blob be _ Hmagic).
  unfold bind at 1.
  replace (log_endianness be ((tr ++ [Print MsgStart])
                                ++ [Print MsgUnencrypted]))
    with (@inr exn unit tt,
          ((tr ++ [Print MsgStart]) ++ [Print MsgUnencrypted])
            ++ [Print (if be then MsgBigEndian else MsgLittleEndian)])
    by (destruct be; reflexivity).
  unfold bind at 1.
  rewrite (extract_header_short be blob _ Hlen).
  now rewrite <- !app_assoc.
Qed.

(** A plaintext big-endian file: unpacked at offset 16 with [wbits] -15. *)
Example unpack_plain_be :
  fst (unpack Samples.stored_inflate Samples.plain_be [])
  = inr (mk_unpacked [0x61; 0x62; 0x63] true false 0x4F4E5431)
  /\ In (Print (MsgSuccess 16 (-15)))
        (snd (unpack Samples.stored_inflate Samples.plain_be [])).
Proof. split; [reflexivity|]. vm_compute. tauto. Qed.

(** The same payload in an encrypted little-endian file. *)
Example unpack_encrypted_le :
  fst (unpack Samples.stored_inflate Samples.encrypted_le [])
  = inr (mk_unpacked [0x61; 0x62; 0x63] false true 0x4F4E5431)
  /\ aes_calls (snd (unpack Samples.stored_inflate Samples.encrypted_le []))
     = [Samples.encrypted_le].
Proof. split; vm_compute; reflexivity. Qed.

(** * Further properties of the script *)

(** ** Packing and unpacking 32-bit words *)

Lemma is_bytesb_sound (l : bytes) : is_bytesb l = true -> is_bytes l.
Proof.
  unfold is_bytesb, is_bytes. rewrite forallb_forall, Forall_forall.
  intros H b Hb. specialize (H b Hb). unfold is_byteb in H. unfold is_byte.
  lia.
Qed.

Lemma is_bytes_cons (b : Z) (l : bytes) :
  is_bytes (b :: l) <-> is_byte b /\ is_bytes l.
Proof. unfold is_bytes. apply Forall_cons_iff. Qed.

(** X1. Packing a value that fits 32 bits gives four octets, and unpacking
    them in the same byte order gives the value back; a value that does not
    fit makes [p32] raise [struct.error]. *)
Theorem u32_p32_roundtrip (be : bool) (v : Z) (tr : trace) :
  (0 <= v < 2 ^ 32 ->
   exists bs,
     p32 be v tr = (inr bs, tr)
     /\ length bs = 4%nat
     /\ is_bytes bs
     /\ (bs <- p32 be v ;; u32 be bs) tr = (inr v, tr))
  /\ (~ 0 <= v < 2 ^ 32 -> p32 be v tr = (inl StructError, tr)).
Proof.
  unfold p32, bind. split.
  - intros Hv.
    destruct (Z.leb_spec 0 v) as [_|Hneg]; [|lia].
    destruct (Z.ltb_spec v (2 ^ 32)) as [_|Hbig]; [|lia].
    cbn [andb]. cbv zeta.
    change (2 ^ 32) with 4294967296 in *.
    change (2 ^ 24) with 16777216. change (2 ^ 16) with 65536.
    change (2 ^ 8) with 256.
    assert (Hsum : v / 16777216 * 16777216 + v / 65536 mod 256 * 65536
                   + v / 256 mod 256 * 256 + v mod 256 = v)
      by (Z.div_mod_to_equations; lia).
    assert (H3 : 0 <= v / 16777216 < 256) by (Z.div_mod_to_equations; lia).
    pose proof (Z.mod_pos_bound (v / 65536) 256 eq_refl) as H2.
    pose proof (Z.mod_pos_bound (v / 256) 256 eq_refl) as H1.
    pose proof (Z.mod_pos_bound v 256 eq_refl) as H0.
    destruct be; eexists; (split; [reflexivity|]); (split; [reflexivity|]);
      (split; [repeat (apply Forall_cons; [unfold is_byte; lia|]);
               apply Forall_nil|]);
      unfold ret, u32; change (2 ^ 24) with 16777216;
      change (2 ^ 16) with 65536; change (2 ^ 8) with 256;
      unfold ret; do 2 f_equal; lia.
  - intros Hv.
    destruct (Z.leb_spec 0 v); destruct (Z.ltb_spec v (2 ^ 32));
      cbn [andb]; try reflexivity. lia.
Qed.

Lemma u32_p32_roundtrip_witness :
  0 <= 0x4F4E5431 < 2 ^ 32
  /\ exists bs,
       p32 false 0x4F4E5431 [] = (inr bs, [])
       /\ length bs = 4%nat
       /\ is_bytes bs
       /\ (bs <- p32 false 0x4F4E5431 ;; u32 false bs) []
          = (inr 0x4F4E5431, []).
Proof.
  assert (H : 0 <= 0x4F4E5431 < 2 ^ 32)
    by (split; [intros H; discriminate H|reflexivity]).
  split; [exact H|].
  exact (proj1 (u32_p32_roundtrip false 0x4F4E5431 []) H).
Defined.

(** X2. Unpacking four octets and packing the value again in the same
    byte order gives the four octets back; [u32] raises [struct.error] on
    any byte string that is not exactly four octets long. *)
Theorem p32_u32_roundtrip (be : bool) (bs : bytes) (tr : trace) :
  (is_bytes bs -> length bs = 4%nat ->
   exists v,
     u32 be bs tr = (inr v, tr)
     /\ 0 <= v < 2 ^ 32
     /\ (v <- u32 be bs ;; p32 be v) tr = (inr bs, tr))
  /\ (length bs <> 4%nat -> u32 be bs tr = (inl StructError, tr)).
Proof.
  split; [|apply u32_wrong_size].
  intros Hb Hlen.
  destruct bs as [|b0 [|b1 [|b2 [|b3 [|b4 rest]]]]]; try discriminate.
  apply is_bytes_cons in Hb as [H0 Hb]. apply is_bytes_cons in Hb as [H1 Hb].
  apply is_bytes_cons in Hb as [H2 Hb]. apply is_bytes_cons in Hb as [H3 _].
  unfold is_byte in *. unfold bind, u32, ret, p32.
  change (2 ^ 32) with 4294967296.
  change (2 ^ 24) with 16777216. change (2 ^ 16) with 65536.
  change (2 ^ 8) with 256.
  set (v := b0 * 16777216 + b1 * 65536 + b2 * 256 + b3).
  set (w := b3 * 16777216 + b2 * 65536 + b1 * 256 + b0).
  assert (Hv : v / 16777216 = b0 /\ v / 65536 mod 256 = b1
               /\ v / 256 mod 256 = b2 /\ v mod 256 = b3)
    by (subst v; repeat split; Z.div_mod_to_equations; lia).
  assert (Hw : w / 16777216 = b3 /\ w / 65536 mod 256 = b2
               /\ w / 256 mod 256 = b1 /\ w mod 256 = b0)
    by (subst w; repeat split; Z.div_mod_to_equations; lia).
  destruct Hv as (Hv3 & Hv2 & Hv1 & Hv0). destruct Hw as (Hw3 & Hw2 & Hw1 & Hw0).
  destruct be; eexists; (split; [reflexivity|]).
  - split; [subst v; lia|].
    destruct (Z.leb_spec 0 v); [|subst v; lia].
    destruct (Z.ltb_spec v 4294967296); [|subst v; lia].
    cbn [andb]. now rewrite Hv3, Hv2, Hv1, Hv0.
  - split; [subst w; lia|].
    destruct (Z.leb_spec 0 w); [|subst w; lia].
    destruct (Z.ltb_spec w 4294967296); [|subst w; lia].
    cbn [andb]. now rewrite Hw3, Hw2, Hw1, Hw0.
Qed.

Lemma p32_u32_roundtrip_witness :
  is_bytes [0x4F; 0x4E; 0x54; 0x31]
  /\ length [0x4F; 0x4E; 0x54; 0x31] = 4%nat
  /\ exists v,
       u32 true [0x4F; 0x4E; 0x54; 0x31] [] = (inr v, [])
       /\ 0 <= v < 2 ^ 32
       /\ (v <- u32 true [0x4F; 0x4E; 0x54; 0x31] ;; p32 true v) []
          = (inr [0x4F; 0x4E; 0x54; 0x31], []).
Proof.
  assert (Hb : is_bytes [0x4F; 0x4E; 0x54; 0x31])
    by (apply is_bytesb_sound; reflexivity).
  split; [exact Hb|]. split; [reflexivity|].
  exact (proj1 (p32_u32_roundtrip true [0x4F; 0x4E; 0x54; 0x31] [])
               Hb eq_refl).
Defined.

Lemma checkendian_firstn (cfg : bytes) :
  checkendian cfg
  = if bytes_eq_dec (firstn 4 cfg) big_endian_magic then Some true
    else if bytes_eq_dec (firstn 4 cfg) little_endian_magic then Some false
    else None.
Proof.
  unfold checkendian. rewrite slice_prefix by lia. reflexivity.
Qed.

(** X3. The magic is one 32-bit number, 0x00123123, written in the byte
    order of the device: on a byte string [checkendian] answers with an
    endianness exactly when the first four octets, unpacked by [u32] in
    that endianness, read 0x00123123. *)
Theorem checkendian_reads_magic_word (cfg : bytes) (be : bool) (tr : trace) :
  is_bytes cfg ->
  (checkendian cfg = Some be
   <-> u32 be (Py.slice cfg (Some 0) (Some 4)) tr = (inr 0x00123123, tr)).
Proof.
  intros Hb. rewrite checkendian_firstn, slice_prefix by lia.
  change (Z.to_nat 4) with 4%nat.
  unfold big_endian_magic, little_endian_magic.
  destruct cfg as [|b0 [|b1 [|b2 [|b3 rest]]]].
  1-4: cbn [firstn];
    destruct (bytes_eq_dec _ [0x00; 0x12; 0x31; 0x23]) as [E|_];
    [discriminate E|];
    destruct (bytes_eq_dec _ [0x23; 0x31; 0x12; 0x00]) as [E|_];
    [discriminate E|];
    split; intros H; discriminate H.
  apply is_bytes_cons in Hb as [H0 Hb]. apply is_bytes_cons in Hb as [H1 Hb].
  apply is_bytes_cons in Hb as [H2 Hb]. apply is_bytes_cons in Hb as [H3 _].
  unfold is_byte in *. cbn [firstn]. unfold u32, ret.
  change (2 ^ 24) with 16777216. change (2 ^ 16) with 65536.
  change (2 ^ 8) with 256.
  destruct (bytes_eq_dec [b0; b1; b2; b3] [0x00; 0x12; 0x31; 0x23]) as [E|N];
    [|destruct (bytes_eq_dec [b0; b1; b2; b3] [0x23; 0x31; 0x12; 0x00])
        as [E|N']].
  - injection E as -> -> -> ->. destruct be; split; intros H;
      try reflexivity; try discriminate H.
  - injection E as -> -> -> ->. destruct be; split; intros H;
      try reflexivity; try discriminate H.
  - split; [discriminate|]. intros H. injection H as H. exfalso.
    destruct be.
    + apply N.
      assert (b0 = 0 /\ b1 = 0x12 /\ b2 = 0x31 /\ b3 = 0x23)
        as (-> & -> & -> & ->) by lia.
      reflexivity.
    + apply N'.
      assert (b0 = 0x23 /\ b1 = 0x31 /\ b2 = 0x12 /\ b3 = 0)
        as (-> & -> & -> & ->) by lia.
      reflexivity.
Qed.

Lemma checkendian_reads_magic_word_witness :
  is_bytes Samples.plain_le
  /\ (checkendian Samples.plain_le = Some false
      <-> u32 false (Py.slice Samples.plain_le (Some 0) (Some 4)) []
          = (inr 0x00123123, []))
  /\ checkendian Samples.plain_le = Some false.
Proof.
  assert (Hb : is_bytes Samples.plain_le)
    by (apply is_bytesb_sound; vm_compute; reflexivity).
  split; [exact Hb|].
  split; [exact (checkendian_reads_magic_word Samples.plain_le false [] Hb)|].
  reflexivity.
Defined.

(** ** Every stage only appends to the trace *)

Lemma frames_ret {A} (a : A) : frames (ret a).
Proof. intros t. cbn. now rewrite app_nil_r. Qed.

Lemma frames_raise {A} (e : exn) : frames (@raise A e).
Proof. intros t. cbn. now rewrite app_nil_r. Qed.

Lemma frames_emit (e : event) : frames (emit e).
Proof. intros t. reflexivity. Qed.

Lemma frames_bind {A B} (m : M A) (k : A -> M B) :
  frames m -> (forall a, frames (k a)) -> frames (bind m k).
Proof.
  intros Hm Hk t. unfold bind. rewrite (Hm t).
  destruct (m []) as [[e|a] s]; cbn [fst snd]; [reflexivity|].
  rewrite (Hk a (t ++ s)), (Hk a s). cbn [fst snd].
  now rewrite app_assoc.
Qed.

Lemma frames_try_except {A} (body handler : M A) (catches : exn -> bool) :
  frames body -> frames handler -> frames (try_except body catches handler).
Proof.
  intros Hb Hh t. unfold try_except. rewrite (Hb t).
  destruct (body []) as [[e|a] s]; cbn [fst snd]; [|reflexivity].
  destruct (catches e); [|reflexivity].
  rewrite (Hh (t ++ s)), (Hh s). cbn [fst snd]. now rewrite app_assoc.
Qed.

Create HintDb frames.
#[local] Hint Resolve frames_ret frames_raise frames_emit : frames.

Ltac frames_step :=
  first
    [ solve [auto 1 with frames nocore]
    | apply frames_bind; [|intros ?]
    | apply frames_try_except
    | match goal with
      | |- frames (if ?c then _ else _) => destruct c
      | |- frames (match ?x with _ => _ end) => destruct x
      | |- frames (let (_, _) := ?x in _) => destruct x
      end ].

Ltac frames_auto := repeat frames_step.

Lemma frames_getitem (l : bytes) (i : Z) : frames (getitem l i).
Proof. unfold getitem. frames_auto. Qed.
#[local] Hint Resolve frames_getitem : frames.

Lemma frames_decrypt (data : bytes) : frames (RouterCrypto.decrypt data).
Proof.
  unfold RouterCrypto.decrypt, RouterCrypto.cipher_decrypt. frames_auto.
Qed.
#[local] Hint Resolve frames_decrypt : frames.

Lemma frames_decryption_check (cfg_data : bytes) :
  frames (decryption_check cfg_data).
Proof.
  unfold decryption_check, print, sys_exit.
  destruct (checkendian cfg_data); frames_auto.
Qed.

Lemma frames_u32 (be : bool) (val : bytes) : frames (u32 be val).
Proof.
  unfold u32. destruct val as [|b0 [|b1 [|b2 [|b3 [|b4 val]]]]]; frames_auto.
Qed.
#[local] Hint Resolve frames_u32 : frames.

Lemma frames_p32 (be : bool) (val : Z) : frames (p32 be val).
Proof. unfold p32. frames_auto. Qed.

Lemma frames_extract_header (be : bool) (cfg_data : bytes) :
  frames (extract_header be cfg_data).
Proof. unfold extract_header, print. frames_auto. Qed.

Lemma frames_verify_checksum (payload : bytes) (expected : Z) :
  frames (verify_checksum payload expected).
Proof. unfold verify_checksum, print, sys_exit. frames_auto. Qed.

Lemma frames_log_endianness (be : bool) : frames (log_endianness be).
Proof. unfold log_endianness, print. frames_auto. Qed.

#[local] Hint Resolve frames_decryption_check frames_extract_header
  frames_verify_checksum frames_log_endianness : frames.

Section Frames.

Variable zlib_decompress : bytes -> Z -> option bytes.

Lemma frames_attempt (offset : Z) (input : bytes) (wbits : Z)
      (x : option bytes) :
  frames (attempt zlib_decompress offset input wbits x).
Proof. unfold attempt, zlib_call, print. frames_auto. Qed.

Lemma frames_inner_loop (offset : Z) (input : bytes) (ws : list Z) :
  forall x, frames (inner_loop zlib_decompress offset input ws x).
Proof.
  induction ws as [|w ws IH]; intros x; cbn [inner_loop].
  - frames_auto.
  - apply frames_bind; [apply frames_attempt|]. intros r.
    destruct (snd r); [frames_auto|apply IH].
Qed.

Lemma frames_outer_loop (payload : bytes) (offs : list Z) :
  forall x, frames (outer_loop zlib_decompress payload offs x).
Proof.
  induction offs as [|o offs IH]; intros x; cbn [outer_loop].
  - frames_auto.
  - apply frames_bind; [apply frames_inner_loop|]. intros x'.
    destruct (Py.truthy_opt x'); [frames_auto|apply IH].
Qed.

Lemma frames_decompress (payload : bytes) :
  frames (decompress zlib_decompress payload).
Proof.
  unfold decompress, print, sys_exit.
  apply frames_bind; [apply frames_outer_loop|]. intros x. frames_auto.
Qed.

Lemma frames_unpack_stages (cfg_data : bytes) :
  frames (unpack_stages zlib_decompress cfg_data).
Proof.
  unfold unpack_stages.
  apply frames_bind; [apply frames_decryption_check|]. intros [[blob be] enc].
  apply frames_bind; [apply frames_log_endianness|]. intros _.
  apply frames_bind; [apply frames_extract_header|]. intros h.
  apply frames_bind; [apply frames_verify_checksum|]. intros _.
  apply frames_bind; [apply frames_decompress|]. intros xml.
  frames_auto.
Qed.

(** [unpack] is the start line, the stages, and then the write and the
    three closing lines. *)
Lemma unpack_via_stages (cfg_data : bytes) (tr : trace) :
  unpack zlib_decompress cfg_data tr
  = match unpack_stages zlib_decompress cfg_data (tr ++ [Print MsgStart]) with
    | (inl e, t) => (inl e, t)
    | (inr (xml, be, enc, fw), t) =>
        (inr (mk_unpacked xml be enc fw),
         t ++ [WriteFile xml; Print MsgUnpacked; Print MsgRepackHeading;
               Print (MsgRepack be enc fw)])
    end.
Proof.
  unfold unpack, unpack_stages.
  cbv beta iota delta [bind print emit ret].
  destruct (decryption_check cfg_data (tr ++ [Print MsgStart]))
    as [[e|[[blob be] enc]] t1]; [reflexivity|].
  destruct (log_endianness be t1) as [[e|[]] t2]; [reflexivity|].
  destruct (extract_header be blob t2) as [[e|h] t3]; [reflexivity|].
  destruct (verify_checksum (compressed h) (checksum h) t3) as [[e|[]] t4];
    [reflexivity|].
  destruct (decompress zlib_decompress (compressed h) t4) as [[e|xml] t5];
    [reflexivity|].
  rewrite <- !app_assoc. reflexivity.
Qed.

End Frames.

(** ** Octets stay octets *)

Lemma lxor_lt_pow2 (n a b : Z) :
  0 < n -> 0 <= a < 2 ^ n -> 0 <= b < 2 ^ n -> 0 <= Z.lxor a b < 2 ^ n.
Proof.
  intros Hn Ha Hb.
  assert (Hnn : 0 <= Z.lxor a b) by (apply Z.lxor_nonneg; lia).
  split; [exact Hnn|].
  assert (Hlog : forall x, 0 <= x < 2 ^ n -> Z.log2 x < n).
  { intros x Hx. destruct (Z.eq_dec x 0) as [->|Hx0]; [cbn; lia|].
    apply Z.log2_lt_pow2; lia. }
  destruct (Z.eq_dec (Z.lxor a b) 0) as [->|Hne].
  - apply Z.pow_pos_nonneg; lia.
  - apply Z.log2_lt_pow2; [lia|].
    pose proof (Z.log2_lxor a b ltac:(lia) ltac:(lia)).
    pose proof (Hlog a Ha). pose proof (Hlog b Hb). lia.
Qed.

Lemma lxor_is_byte (a b : Z) : is_byte a -> is_byte b -> is_byte (Z.lxor a b).
Proof.
  unfold is_byte. intros Ha Hb.
  change 256 with (2 ^ 8) in *. apply lxor_lt_pow2; lia.
Qed.

Lemma is_bytes_firstn (n : nat) (l : bytes) : is_bytes l -> is_bytes (firstn n l).
Proof.
  unfold is_bytes. revert l. induction n as [|n IH]; intros l H; cbn.
  - constructor.
  - destruct H as [|b l Hb H]; constructor; auto.
Qed.

Lemma is_bytes_skipn (n : nat) (l : bytes) : is_bytes l -> is_bytes (skipn n l).
Proof.
  unfold is_bytes. revert l. induction n as [|n IH]; intros l H; cbn.
  - exact H.
  - destruct H as [|b l Hb H]; [constructor|auto].
Qed.

Lemma is_bytes_app (a b : bytes) : is_bytes a -> is_bytes b -> is_bytes (a ++ b).
Proof. unfold is_bytes. intros Ha Hb. apply Forall_app. now split. Qed.

Lemma xor_bytes_is_bytes (a b : bytes) :
  is_bytes a -> is_bytes b -> is_bytes (AES.xor_bytes a b).
Proof.
  unfold AES.xor_bytes, is_bytes. intros Ha. revert b.
  induction Ha as [|x a Hx Ha IH]; intros b Hb; [constructor|].
  destruct Hb as [|y b Hy Hb]; cbn; constructor.
  - now apply lxor_is_byte.
  - now apply IH.
Qed.

Lemma inv_sbox_is_bytes : is_bytes AES.inv_sbox.
Proof. apply is_bytesb_sound. vm_compute. reflexivity. Qed.

Lemma inv_cipher_is_bytes (block : bytes) :
  is_bytes (AES.inv_cipher RouterCrypto.schedule block).
Proof.
  unfold AES.inv_cipher, AES.add_round_key. apply xor_bytes_is_bytes.
  - unfold AES.inv_sub_bytes, is_bytes. apply Forall_map, Forall_forall.
    intros a _. unfold AES.sub. apply nth_is_byte, inv_sbox_is_bytes.
  - apply is_bytesb_sound. vm_compute. reflexivity.
Qed.

Lemma cbc_loop_is_bytes (n : nat) :
  forall prev data,
    is_bytes prev -> is_bytes data ->
    is_bytes (AES.cbc_loop RouterCrypto.schedule n prev data).
Proof.
  induction n as [|n IH]; intros prev data Hp Hd; cbn [AES.cbc_loop].
  - constructor.
  - apply is_bytes_app.
    + apply xor_bytes_is_bytes; [apply inv_cipher_is_bytes|exact Hp].
    + apply IH; [now apply is_bytes_firstn|now apply is_bytes_skipn].
Qed.

Lemma cbc_decrypt_is_bytes (data output : bytes) :
  is_bytes data ->
  AES.cbc_decrypt RouterCrypto.schedule RouterCrypto.iv data = Some output ->
  is_bytes output.
Proof.
  unfold AES.cbc_decrypt. intros Hd.
  destruct (_ =? 0); [|discriminate]. intros H. injection H as <-.
  apply cbc_loop_is_bytes; [|exact Hd].
  apply is_bytesb_sound. vm_compute. reflexivity.
Qed.

Lemma last_is_byte (l : bytes) : is_bytes l -> is_byte (last l 0).
Proof.
  intros H. induction H as [|b l Hb H IH]; [unfold is_byte; cbn; lia|].
  destruct l; [exact Hb|exact IH].
Qed.

(** X4. Given octets in a whole number of blocks, [decrypt] returns octets,
    always strictly fewer than it was given: either nothing at all, or the
    cipher's output short of between 1 and 255 trailing octets.  It returns
    only on non-empty block-aligned input. *)
Theorem decrypt_returns_shorter (data result : bytes) (tr tr' : trace) :
  is_bytes data ->
  RouterCrypto.decrypt data tr = (inr result, tr') ->
  0 < Py.len data
  /\ Py.len data mod 16 = 0
  /\ is_bytes result
  /\ Py.len result < Py.len data
  /\ (result = [] \/ Py.len data - 255 <= Py.len result)
  /\ exists output,
       AES.cbc_decrypt RouterCrypto.schedule RouterCrypto.iv data
       = Some output
       /\ result = firstn (length result) output.
Proof.
  intros Hd. rewrite decrypt_unfold.
  destruct (Z.eq_dec (Py.len data mod 16) 0) as [Hal|Hun];
    [|rewrite (cbc_decrypt_unaligned data Hun); discriminate].
  destruct (cbc_decrypt_aligned data Hal) as (output & Hout & Hlen).
  rewrite Hout. destruct output as [|b output']; [discriminate|].
  set (output := b :: output') in *.
  pose proof (cbc_decrypt_is_bytes data output Hd Hout) as Hob.
  pose proof (last_is_byte output Hob) as Hn. unfold is_byte in Hn.
  intros H. apply (f_equal fst) in H. cbn [fst] in H.
  assert (Hr : result = Py.slice output None (Some (- last output 0)))
    by congruence.
  clear H. subst result.
  rewrite slice_drop_last by exact (proj1 Hn).
  assert (Hpos : 0 < Py.len data)
    by (unfold Py.len; rewrite <- Hlen; unfold output; cbn [length]; lia).
  assert (Hl : Py.len output = Py.len data) by (unfold Py.len; now rewrite Hlen).
  split; [exact Hpos|]. split; [exact Hal|].
  destruct ((1 <=? last output 0) && (last output 0 <=? Py.len output))
    eqn:Hcase.
  - apply andb_true_iff in Hcase as [H1 H2].
    apply Z.leb_le in H1, H2.
    assert (Hk : Py.len (firstn (Z.to_nat (Py.len output - last output 0))
                                output)
                 = Py.len output - last output 0).
    { unfold Py.len in *. rewrite length_firstn. lia. }
    split; [now apply is_bytes_firstn|].
    split; [lia|]. split; [right; lia|].
    exists output. split; [reflexivity|].
    rewrite length_firstn. f_equal. unfold Py.len in *. lia.
  - split; [constructor|]. split; [cbn; lia|]. split; [now left|].
    exists output. split; reflexivity.
Qed.



Lemma decrypt_returns_shorter_witness :
  is_bytes Samples.encrypted_le
  /\ RouterCrypto.decrypt Samples.encrypted_le []
     = (inr Samples.plain_le, [AesDecrypt Samples.encrypted_le])
  /\ 0 < Py.len Samples.encrypted_le
  /\ Py.len Samples.encrypted_le mod 16 = 0
  /\ is_bytes Samples.plain_le
  /\ Py.len Samples.plain_le < Py.len Samples.encrypted_le
  /\ (Samples.plain_le = []
      \/ Py.len Samples.encrypted_le - 255 <= Py.len Samples.plain_le)
  /\ exists output,
       AES.cbc_decrypt RouterCrypto.schedule RouterCrypto.iv
                       Samples.encrypted_le = Some output
       /\ Samples.plain_le = firstn (length Samples.plain_le) output.
Proof.
  assert (Hb : is_bytes Samples.encrypted_le)
    by (apply is_bytesb_sound; vm_compute; reflexivity).
  assert (Hrun : RouterCrypto.decrypt Samples.encrypted_le []
                 = (inr Samples.plain_le, [AesDecrypt Samples.encrypted_le]))
    by (vm_compute; reflexivity).
  split; [exact Hb|]. split; [exact Hrun|].
  exact (decrypt_returns_shorter _ _ _ _ Hb Hrun).
Defined.

(** ** What the decryption check hands on *)

Lemma checkendian_Some_length (l : bytes) (be : bool) :
  checkendian l = Some be -> 4 <= Py.len l.
Proof.
  rewrite checkendian_firstn.
  assert (H : forall m, firstn 4 l = m -> length m = 4%nat -> 4 <= Py.len l).
  { intros m <-. rewrite length_firstn. unfold Py.len. lia. }
  destruct (bytes_eq_dec _ _) as [E|_]; [intros _; now apply (H _ E)|].
  destruct (bytes_eq_dec _ _) as [E|_]; [intros _; now apply (H _ E)|].
  discriminate.
Qed.

Lemma decrypt_trace (data : bytes) (tr tr' : trace) (r : exn + bytes) :
  RouterCrypto.decrypt data tr = (r, tr') -> tr' = tr ++ [AesDecrypt data].
Proof.
  rewrite decrypt_unfold.
  destruct (AES.cbc_decrypt _ _ data) as [[|b output]|]; intros H;
    now injection H as _ <-.
Qed.

Lemma decryption_check_magic (cfg blob : bytes) (be enc : bool)
      (tr tr' : trace) :
  decryption_check cfg tr = (inr (blob, be, enc), tr') ->
  checkendian blob = Some be /\ (enc = true <-> checkendian cfg = None).
Proof.
  destruct (checkendian cfg) as [be0|] eqn:Hmagic.
  - rewrite (decryption_check_plain cfg be0 tr Hmagic).
    intros H. injection H as <- <- <- _.
    split; [exact Hmagic|]. split; discriminate.
  - rewrite (decryption_check_no_magic cfg tr Hmagic).
    destruct (RouterCrypto.decrypt cfg tr) as [[e|decrypted] tr1];
      [discriminate|].
    destruct (checkendian decrypted) as [be1|] eqn:Hmagic1; [|discriminate].
    intros H. injection H as <- <- <- _. split; [exact Hmagic1|tauto].
Qed.

(** X5. Whatever the decryption check returns starts with the magic of the
    endianness it reports.  With [encrypted_cfg] false it is the input
    itself and the cipher was not called; with [encrypted_cfg] true the
    input carried no magic, the cipher was called once on it, and the
    result is what [decrypt] returned. *)
Theorem decryption_check_result (cfg blob : bytes) (be enc : bool)
        (tr tr' : trace) :
  decryption_check cfg tr = (inr (blob, be, enc), tr') ->
  checkendian blob = Some be
  /\ 4 <= Py.len blob
  /\ (enc = false ->
      blob = cfg /\ tr' = tr ++ [Print MsgUnencrypted])
  /\ (enc = true ->
      checkendian cfg = None
      /\ RouterCrypto.decrypt cfg tr = (inr blob, tr ++ [AesDecrypt cfg])
      /\ tr' = tr ++ [AesDecrypt cfg; Print MsgEncrypted]).
Proof.
  destruct (checkendian cfg) as [be0|] eqn:Hmagic.
  - rewrite (decryption_check_plain cfg be0 tr Hmagic).
    intros H. injection H as <- <- <- <-.
    split; [exact Hmagic|].
    split; [exact (checkendian_Some_length _ _ Hmagic)|].
    split; [now split|]. discriminate.
  - rewrite (decryption_check_no_magic cfg tr Hmagic).
    destruct (RouterCrypto.decrypt cfg tr) as [[e|decrypted] tr1] eqn:Hdec;
      [discriminate|].
    pose proof (decrypt_trace _ _ _ _ Hdec) as ->.
    destruct (checkendian decrypted) as [be1|] eqn:Hmagic1; [|discriminate].
    intros H. injection H as <- <- <- <-.
    split; [exact Hmagic1|].
    split; [exact (checkendian_Some_length _ _ Hmagic1)|].
    split; [discriminate|].
    intros _. now rewrite <- app_assoc.
Qed.

Lemma decryption_check_result_witness :
  decryption_check Samples.encrypted_le []
  = (inr (Samples.plain_le, false, true),
     [AesDecrypt Samples.encrypted_le; Print MsgEncrypted])
  /\ checkendian Samples.plain_le = Some false
  /\ 4 <= Py.len Samples.plain_le
  /\ (true = true ->
      checkendian Samples.encrypted_le = None
      /\ RouterCrypto.decrypt Samples.encrypted_le []
         = (inr Samples.plain_le, [] ++ [AesDecrypt Samples.encrypted_le])
      /\ [AesDecrypt Samples.encrypted_le; Print MsgEncrypted]
         = [] ++ [AesDecrypt Samples.encrypted_le; Print MsgEncrypted]).
Proof.
  assert (Hrun : decryption_check Samples.encrypted_le []
                 = (inr (Samples.plain_le, false, true),
                    [AesDecrypt Samples.encrypted_le; Print MsgEncrypted]))
    by (vm_compute; reflexivity).
  split; [exact Hrun|].
  destruct (decryption_check_result _ _ _ _ _ _ Hrun) as (H1 & H2 & _ & H4).
  split; [exact H1|]. split; [exact H2|exact H4].
Defined.

(** ** The checksum is a 32-bit value *)

Lemma shift_bits_range (n : nat) :
  forall c, 0 <= c < 2 ^ 32 -> 0 <= Binascii.shift_bits n c < 2 ^ 32.
Proof.
  induction n as [|n IH]; intros c Hc; cbn [Binascii.shift_bits]; [exact Hc|].
  apply IH.
  assert (Hhalf : 0 <= Z.shiftr c 1 < 2 ^ 32).
  { rewrite Z.shiftr_div_pow2 by lia. change (2 ^ 1) with 2.
    change (2 ^ 32) with 4294967296 in *. Z.div_mod_to_equations. lia. }
  destruct (Z.testbit c 0); [|exact Hhalf].
  apply lxor_lt_pow2; [lia|exact Hhalf|].
  unfold Binascii.poly. change (2 ^ 32) with 4294967296. lia.
Qed.

Lemma update_range (c b : Z) :
  0 <= c < 2 ^ 32 -> is_byte b -> 0 <= Binascii.update c b < 2 ^ 32.
Proof.
  intros Hc Hb. unfold Binascii.update. apply shift_bits_range.
  apply lxor_lt_pow2; [lia|exact Hc|].
  unfold is_byte in Hb. change (2 ^ 32) with 4294967296. lia.
Qed.

Lemma fold_update_range (data : bytes) :
  is_bytes data ->
  forall c, 0 <= c < 2 ^ 32 ->
            0 <= fold_left Binascii.update data c < 2 ^ 32.
Proof.
  intros Hd. induction Hd as [|b data Hb Hd IH]; intros c Hc; cbn [fold_left].
  - exact Hc.
  - apply IH. now apply update_range.
Qed.

(** X6. On octets the CRC-32 is always in [0, 2^32): the mask the script
    applies before comparing never changes it, so the checksum stage lets
    a payload through exactly when its CRC-32 equals the expected value. *)
Theorem crc32_fits_32_bits (data : bytes) :
  is_bytes data ->
  0 <= Binascii.crc32 data < 2 ^ 32
  /\ Z.land (Binascii.crc32 data) 0xFFFFFFFF = Binascii.crc32 data
  /\ forall expected tr,
       verify_checksum data expected tr = (inr tt, tr ++ [Print MsgCrcPassed])
       <-> Binascii.crc32 data = expected.
Proof.
  intros Hd.
  assert (Hr : 0 <= Binascii.crc32 data < 2 ^ 32).
  { unfold Binascii.crc32. apply lxor_lt_pow2; [lia| |].
    - apply fold_update_range; [exact Hd|].
      change (2 ^ 32) with 4294967296. lia.
    - change (2 ^ 32) with 4294967296. lia. }
  assert (Hm : Z.land (Binascii.crc32 data) 0xFFFFFFFF = Binascii.crc32 data).
  { change 0xFFFFFFFF with (Z.ones 32). rewrite Z.land_ones by lia.
    now apply Z.mod_small. }
  split; [exact Hr|]. split; [exact Hm|].
  intros expected tr. rewrite verify_checksum_spec, Hm.
  destruct (Z.eqb_spec (Binascii.crc32 data) expected) as [E|N].
  - tauto.
  - split; [discriminate|contradiction].
Qed.

Lemma crc32_fits_32_bits_witness :
  is_bytes Samples.payload
  /\ 0 <= Binascii.crc32 Samples.payload < 2 ^ 32
  /\ Z.land (Binascii.crc32 Samples.payload) 0xFFFFFFFF
     = Binascii.crc32 Samples.payload
  /\ forall expected tr,
       verify_checksum Samples.payload expected tr
       = (inr tt, tr ++ [Print MsgCrcPassed])
       <-> Binascii.crc32 Samples.payload = expected.
Proof.
  assert (Hb : is_bytes Samples.payload)
    by (apply is_bytesb_sound; vm_compute; reflexivity).
  split; [exact Hb|]. exact (crc32_fits_32_bits Samples.payload Hb).
Defined.

(** ** Whole runs of the unpack branch *)

Lemma decryption_check_error (cfg : bytes) (tr tr' : trace) (e : exn) :
  decryption_check cfg tr = (inl e, tr') -> e = SystemExit 1.
Proof.
  destruct (checkendian cfg) as [be|] eqn:Hmagic.
  - rewrite (decryption_check_plain cfg be tr Hmagic). discriminate.
  - rewrite (decryption_check_no_magic cfg tr Hmagic).
    destruct (RouterCrypto.decrypt cfg tr) as [[e'|decrypted] tr1].
    + intros H. now injection H as <- _.
    + destruct (checkendian decrypted); [discriminate|].
      intros H. now injection H as <- _.
Qed.

Section Runs.

Variable zlib_decompress : bytes -> Z -> option bytes.

(** The run in closed form: which stage ends it and what the trace holds. *)
Lemma unpack_spec (cfg : bytes) (tr : trace) :
  unpack zlib_decompress cfg tr
  = match decryption_check cfg (tr ++ [Print MsgStart]) with
    | (inl e, tr1) => (inl e, tr1)
    | (inr (blob, be, enc), tr1) =>
        let tr1' :=
          tr1 ++ [Print (if be then MsgBigEndian else MsgLittleEndian)] in
        if Py.len blob <? 0x14 then (inl StructError, tr1')
        else
          let fw := word_at be blob 16 in
          let payload :=
            Py.slice blob (Some 0x14) (Some (0x14 + word_at be blob 4)) in
          let tr2 := tr1' ++ [Print (MsgFwMagic fw)] in
          if Z.land (Binascii.crc32 payload) 0xFFFFFFFF =? word_at be blob 8
          then
            match search zlib_decompress payload candidates with
            | Some (tried, c, out) =>
                (inr (mk_unpacked out be enc fw),
                 tr2 ++ [Print MsgCrcPassed]
                     ++ map (attempt_event payload) tried
                     ++ [Print (MsgSuccess (fst c) (snd c)); WriteFile out;
                         Print MsgUnpacked; Print MsgRepackHeading;
                         Print (MsgRepack be enc fw)])
            | None =>
                (inl (SystemExit 1),
                 tr2 ++ [Print MsgCrcPassed]
                     ++ map (attempt_event payload) candidates
                     ++ [Print MsgDecompFailed; Print MsgNonDeflate])
            end
          else (inl (SystemExit 1), tr2 ++ [Print MsgCrcFailed])
    end.
Proof.
  destruct (decryption_check cfg (tr ++ [Print MsgStart]))
    as [[e|[[blob be] enc]] tr1] eqn:Hcheck.
  - unfold unpack. unfold bind at 1. unfold print at 1, emit at 1.
    unfold bind at 1. now rewrite Hcheck.
  - cbv zeta. destruct (Z.ltb_spec (Py.len blob) 0x14) as [Hshort|Hlong].
    + unfold unpack. unfold bind at 1. unfold print at 1, emit at 1.
      unfold bind at 1. rewrite Hcheck. unfold bind at 1.
      replace (log_endianness be tr1)
        with (@inr exn unit tt,
              tr1 ++ [Print (if be then MsgBigEndian else MsgLittleEndian)])
        by (destruct be; reflexivity).
      unfold bind at 1. now rewrite (extract_header_short be blob _ Hshort).
    + rewrite (unpack_after_header zlib_decompress cfg blob be enc _ tr tr1 _
                 Hcheck (extract_header_long be blob _ Hlong)).
      cbn [compressed checksum fw_magic].
      unfold bind at 1. rewrite verify_checksum_spec.
      destruct (Z.land _ _ =? _); [|reflexivity].
      unfold bind at 1. rewrite decompress_spec.
      destruct (search _ _ _) as [[[tried c] out]|].
      * unfold print. unfold bind, emit, ret.
        rewrite <- !app_assoc. reflexivity.
      * now rewrite <- !app_assoc.
Qed.

Lemma search_winner (payload : bytes) (cands : list (Z * Z)) :
  forall tried c out,
    search zlib_decompress payload cands = Some (tried, c, out) ->
    In c cands
    /\ outcome zlib_decompress payload c = Some out
    /\ (length tried <= length cands)%nat.
Proof.
  induction cands as [|c' cands IH]; intros tried c out; cbn [search];
    [discriminate|].
  destruct (outcome zlib_decompress payload c') as [out'|] eqn:Hc'.
  - intros H. injection H as <- <- <-. cbn. split; [now left|].
    split; [exact Hc'|lia].
  - destruct (search zlib_decompress payload cands)
      as [[[tried' c''] out'']|]; [|discriminate].
    intros H. injection H as <- <- <-.
    destruct (IH _ _ _ eq_refl) as (Hin & Hout & Hlen).
    cbn. split; [now right|]. split; [exact Hout|lia].
Qed.

Lemma outcome_Some (payload : bytes) (c : Z * Z) (out : bytes) :
  outcome zlib_decompress payload c = Some out ->
  zlib_decompress (Py.slice payload (Some (fst c)) None) (snd c) = Some out
  /\ out <> [].
Proof.
  unfold outcome, candidate_input.
  destruct (zlib_decompress _ _) as [o|]; [|discriminate].
  destruct o as [|b o]; cbn; [discriminate|].
  intros H. injection H as <-. split; [reflexivity|discriminate].
Qed.

(** X7. A run of the unpack branch that does not succeed ends in one of two
    ways only: [sys.exit(1)] after a printed report, or an uncaught
    [struct.error].  The second happens exactly when the blob that passed
    the decryption check holds between 4 and 19 octets.  No error of the
    cipher, of zlib or of indexing ever reaches the caller. *)
Theorem unpack_failure_kinds (cfg : bytes) (tr : trace) (e : exn) :
  fst (unpack zlib_decompress cfg tr) = inl e ->
  (e = SystemExit 1 \/ e = StructError)
  /\ (e = StructError
      <-> exists blob be enc tr1,
            decryption_check cfg (tr ++ [Print MsgStart])
            = (inr (blob, be, enc), tr1)
            /\ 4 <= Py.len blob < 0x14).
Proof.
  rewrite unpack_spec.
  destruct (decryption_check cfg (tr ++ [Print MsgStart]))
    as [[e0|[[blob be] enc]] tr1] eqn:Hcheck.
  - cbn [fst]. intros H. injection H as <-.
    rewrite (decryption_check_error _ _ _ _ Hcheck).
    split; [now left|]. split; [discriminate|].
    intros (blob & be & enc & tr1' & H & _). discriminate H.
  - cbv zeta.
    pose proof (proj1 (decryption_check_magic _ _ _ _ _ _ Hcheck)) as Hmagic.
    pose proof (checkendian_Some_length _ _ Hmagic) as Hlen4.
    destruct (Z.ltb_spec (Py.len blob) 0x14) as [Hshort|Hlong].
    + cbn [fst]. intros H. injection H as <-.
      split; [now right|]. split; [|reflexivity].
      intros _. exists blob, be, enc, tr1. split; [reflexivity|lia].
    + assert (Hexit : e = SystemExit 1 ->
                (e = SystemExit 1 \/ e = StructError)
                /\ (e = StructError
                    <-> exists blob0 be0 enc0 tr0,
                          (@inr exn _ (blob, be, enc), tr1)
                          = (inr (blob0, be0, enc0), tr0)
                          /\ 4 <= Py.len blob0 < 0x14)).
      { intros ->. split; [now left|]. split; [discriminate|].
        intros (blob0 & be0 & enc0 & tr0 & H & Hl).
        injection H as <- _ _ _. lia. }
      destruct (Z.land _ _ =? _).
      * destruct (search _ _ _) as [[[tried c] out]|]; cbn [fst];
          [discriminate|].
        intros H. injection H as <-. now apply Hexit.
      * cbn [fst]. intros H. injection H as <-. now apply Hexit.
Qed.

(** X8. When the unpack branch succeeds, the reported flags and the
    document are backed by the file: the blob that passed the decryption
    check starts with the magic of the reported endianness and holds a full
    header, [encrypted_cfg] is set exactly when the file itself carried no
    magic, the reported [fw_magic] is the word at 0x10, the checksum field
    equals the CRC-32 of the payload, and the document is the non-empty
    output of zlib on the payload from one of the offsets with one of the
    window parameters. *)
Theorem unpack_success_sound (cfg : bytes) (tr tr' : trace) (u : unpacked) :
  unpack zlib_decompress cfg tr = (inr u, tr') ->
  exists blob tr1,
    decryption_check cfg (tr ++ [Print MsgStart])
    = (inr (blob, big_endian u, encrypted_cfg u), tr1)
    /\ checkendian blob = Some (big_endian u)
    /\ (encrypted_cfg u = true <-> checkendian cfg = None)
    /\ 0x14 <= Py.len blob
    /\ magic u = word_at (big_endian u) blob 16
    /\ Z.land (Binascii.crc32
                 (Py.slice blob (Some 0x14)
                           (Some (0x14 + word_at (big_endian u) blob 4))))
              0xFFFFFFFF
       = word_at (big_endian u) blob 8
    /\ xml_data u <> []
    /\ exists offset wbits,
         In offset offsets
         /\ In wbits wbits_to_try
         /\ zlib_decompress
              (Py.slice (Py.slice blob (Some 0x14)
                                  (Some (0x14 + word_at (big_endian u) blob 4)))
                        (Some offset) None)
              wbits
            = Some (xml_data u)
         /\ In (Print (MsgSuccess offset wbits)) tr'.
Proof.
  rewrite unpack_spec.
  destruct (decryption_check cfg (tr ++ [Print MsgStart]))
    as [[e0|[[blob be] enc]] tr1] eqn:Hcheck; [discriminate|].
  cbv zeta.
  destruct (Z.ltb_spec (Py.len blob) 0x14) as [Hshort|Hlong]; [discriminate|].
  destruct (Z.eqb_spec
              (Z.land (Binascii.crc32
                         (Py.slice blob (Some 0x14)
                                   (Some (0x14 + word_at be blob 4))))
                      0xFFFFFFFF)
              (word_at be blob 8)) as [Hcrc|Hcrc]; [|discriminate].
  destruct (search _ _ _) as [[[tried c] out]|] eqn:Hsearch; [|discriminate].
  intros H. apply pair_equal_spec in H as [Hu <-].
  assert (Hu' : u = mk_unpacked out be enc (word_at be blob 16))
    by congruence.
  clear Hu. subst u. cbn [big_endian encrypted_cfg magic xml_data].
  destruct (decryption_check_magic _ _ _ _ _ _ Hcheck) as [Hmagic Henc].
  destruct (search_winner _ _ _ _ _ Hsearch) as (Hin & Hout & _).
  destruct (outcome_Some _ _ _ Hout) as [Hz Hne].
  unfold candidates in Hin. destruct c as [offset wbits].
  apply in_prod_iff in Hin as [Ho Hw].
  exists blob, tr1. split; [reflexivity|]. split; [exact Hmagic|].
  split; [exact Henc|]. split; [exact Hlong|]. split; [reflexivity|].
  split; [exact Hcrc|]. split; [exact Hne|].
  exists offset, wbits. split; [exact Ho|]. split; [exact Hw|].
  split; [exact Hz|].
  rewrite !in_app_iff. do 3 right. cbn [In]. now left.
Qed.

Lemma decryption_check_appended (cfg : bytes) (tr : trace) :
  exists m,
    snd (decryption_check cfg tr)
    = tr ++ match checkendian cfg with
            | Some _ => []
            | None => [AesDecrypt cfg]
            end ++ [Print m].
Proof.
  destruct (checkendian cfg) as [be|] eqn:Hmagic.
  - rewrite (decryption_check_plain cfg be tr Hmagic). now eexists.
  - rewrite (decryption_check_no_magic cfg tr Hmagic), decrypt_unfold.
    destruct (AES.cbc_decrypt _ _ cfg) as [[|b output]|]; cbv beta iota;
      try (eexists; cbn [snd]; now rewrite <- app_assoc).
    clear Hmagic.
    destruct (checkendian _); eexists; cbn [snd]; now rewrite <- app_assoc.
Qed.

Lemma attempts_only_call_zlib (payload : bytes) (cands : list (Z * Z)) :
  writes (map (attempt_event payload) cands) = []
  /\ aes_calls (map (attempt_event payload) cands) = []
  /\ length (zlib_calls (map (attempt_event payload) cands)) = length cands.
Proof.
  induction cands as [|c cands (Hw & Ha & Hz)]; [now repeat split|].
  cbn. repeat split; auto.
Qed.


(** X10. In one run of the unpack branch the cipher is called exactly once
    when the file carries no magic, on the whole file, and not at all when
    it does; zlib is called at most 55 times. *)
Theorem library_calls_bounded (cfg : bytes) (tr : trace) :
  aes_calls (snd (unpack zlib_decompress cfg tr))
  = aes_calls tr ++ match checkendian cfg with
                    | Some _ => []
                    | None => [cfg]
                    end
  /\ (length (zlib_calls (snd (unpack zlib_decompress cfg tr)))
      <= length (zlib_calls tr) + 55)%nat.
Proof.
  rewrite unpack_spec.
  destruct (decryption_check_appended cfg (tr ++ [Print MsgStart]))
    as [m Htr].
  assert (Hpre : forall rest,
             aes_calls rest = [] ->
             aes_calls (tr ++ [Print MsgStart]
                           ++ match checkendian cfg with
                              | Some _ => []
                              | None => [AesDecrypt cfg]
                              end ++ [Print m] ++ rest)
             = aes_calls tr ++ match checkendian cfg with
                               | Some _ => []
                               | None => [cfg]
                               end
             /\ length (zlib_calls
                          (tr ++ [Print MsgStart]
                              ++ match checkendian cfg with
                                 | Some _ => []
                                 | None => [AesDecrypt cfg]
                                 end ++ [Print m] ++ rest))
                = (length (zlib_calls tr) + length (zlib_calls rest))%nat).
  { intros rest Hrest. unfold aes_calls, zlib_calls in *.
    rewrite !flat_map_app, !length_app, Hrest.
    destruct (checkendian cfg); cbn; rewrite ?app_nil_r; split;
      reflexivity || lia. }
  assert (Hatt : forall p l rest,
             aes_calls rest = [] ->
             aes_calls (map (attempt_event p) l ++ rest) = []
             /\ length (zlib_calls (map (attempt_event p) l ++ rest))
                = (length l + length (zlib_calls rest))%nat).
  { intros p l rest Hrest.
    destruct (attempts_only_call_zlib p l) as (_ & Ha & Hz).
    unfold aes_calls, zlib_calls in *.
    rewrite !flat_map_app, length_app, Ha, Hz, Hrest. now split. }
  destruct (decryption_check cfg (tr ++ [Print MsgStart]))
    as [[e0|[[blob be] enc]] tr1]; cbn [snd] in Htr; subst tr1.
  - cbn [snd]. rewrite <- (app_nil_r [Print m]), <- !app_assoc.
    destruct (Hpre [] eq_refl) as [-> ->]. cbn. split; [reflexivity|lia].
  - cbv zeta.
    destruct (Py.len blob <? 0x14).
    { cbn [snd]. rewrite <- !app_assoc.
      match goal with
      | |- context [[Print m] ++ ?rest] =>
          destruct (Hpre rest eq_refl) as [-> ->]
      end.
      cbn. split; [reflexivity|lia]. }
    destruct (Z.land _ _ =? _).
    2:{ cbn [snd]. rewrite <- !app_assoc.
        match goal with
        | |- context [[Print m] ++ ?rest] =>
            destruct (Hpre rest eq_refl) as [-> ->]
        end.
        cbn. split; [reflexivity|lia]. }
    destruct (search _ _ _) as [[[tried c] out]|] eqn:Hs; cbn [snd];
      rewrite <- !app_assoc.
    + destruct (Hatt (Py.slice blob (Some 0x14)
                               (Some (0x14 + word_at be blob 4)))
                     tried
                     [Print (MsgSuccess (fst c) (snd c)); WriteFile out;
                      Print MsgUnpacked; Print MsgRepackHeading;
                      Print (MsgRepack be enc (word_at be blob 16))]
                     eq_refl) as [Ha Hz].
      match goal with
      | |- context [[Print m] ++ ?rest] =>
          destruct (Hpre rest) as [-> ->]
      end.
      * unfold aes_calls in *. cbn [flat_map app]. exact Ha.
      * split; [reflexivity|].
        unfold zlib_calls in *. cbn [flat_map app length]. rewrite Hz.
        destruct (search_winner _ _ _ _ _ Hs) as (_ & _ & Hlen).
        change (length candidates) with 55%nat in Hlen. cbn. lia.
    + destruct (Hatt (Py.slice blob (Some 0x14)
                               (Some (0x14 + word_at be blob 4)))
                     candidates
                     [Print MsgDecompFailed; Print MsgNonDeflate]
                     eq_refl) as [Ha Hz].
      match goal with
      | |- context [[Print m] ++ ?rest] =>
          destruct (Hpre rest) as [-> ->]
      end.
      * unfold aes_calls in *. cbn [flat_map app]. exact Ha.
      * split; [reflexivity|].
        unfold zlib_calls in *. cbn [flat_map app length]. rewrite Hz.
        change (length candidates) with 55%nat. cbn. lia.
Qed.

Lemma word_at_app (be : bool) (l extra : bytes) (a : nat) :
  (a + 4 <= length l)%nat -> word_at be (l ++ extra) a = word_at be l a.
Proof.
  intros Ha. unfold word_at. now rewrite !app_nth1 by lia.
Qed.

Lemma checkendian_app (l extra : bytes) :
  (4 <= length l)%nat -> checkendian (l ++ extra) = checkendian l.
Proof.
  intros Hl. rewrite !checkendian_firstn, firstn_app.
  replace (4 - length l)%nat with 0%nat by lia.
  cbn [firstn]. now rewrite app_nil_r.
Qed.

(** X11. Octets that follow the payload the header announces are never
    looked at: a plaintext file whose payload lies within it is unpacked
    in exactly the same way, with the same result and the same trace,
    whatever is appended to it. *)
Theorem trailing_bytes_ignored (blob extra : bytes) (be : bool) (tr : trace) :
  is_bytes blob ->
  checkendian blob = Some be ->
  0x14 + word_at be blob 4 <= Py.len blob ->
  unpack zlib_decompress (blob ++ extra) tr = unpack zlib_decompress blob tr.
Proof.
  intros Hb Hmagic Hfit.
  pose proof (word_at_range be blob 4 Hb) as Hsize.
  assert (Hlen : (20 <= length blob)%nat) by (unfold Py.len in Hfit; lia).
  assert (Hmagic' : checkendian (blob ++ extra) = Some be)
    by (rewrite checkendian_app by lia; exact Hmagic).
  rewrite !unpack_spec.
  rewrite (decryption_check_plain _ be _ Hmagic').
  rewrite (decryption_check_plain _ be _ Hmagic).
  cbv zeta.
  destruct (Z.ltb_spec (Py.len (blob ++ extra)) 0x14) as [Hs|_];
    [unfold Py.len in Hs; rewrite length_app in Hs; lia|].
  destruct (Z.ltb_spec (Py.len blob) 0x14) as [Hs|_];
    [unfold Py.len in Hs; lia|].
  rewrite !(word_at_app be blob extra) by lia.
  assert (Hslice : Py.slice (blob ++ extra) (Some 0x14)
                            (Some (0x14 + word_at be blob 4))
                   = Py.slice blob (Some 0x14)
                              (Some (0x14 + word_at be blob 4))).
  { rewrite !slice_between by lia. change (Z.to_nat 0x14) with 20%nat.
    rewrite skipn_app, firstn_app.
    replace (20 - length blob)%nat with 0%nat by lia.
    rewrite length_skipn.
    replace (Z.to_nat (0x14 + word_at be blob 4 - 0x14)
             - (length blob - 20))%nat with 0%nat
      by (unfold Py.len in Hfit; lia).
    cbn [skipn firstn]. now rewrite app_nil_r. }
  rewrite Hslice. reflexivity.
Qed.

Lemma word_at_reserved (be : bool) (pre pad pad' post : bytes) (a : nat) :
  length pre = 12%nat -> length pad = 4%nat -> length pad' = 4%nat ->
  (a + 4 <= 12)%nat \/ (16 <= a)%nat ->
  word_at be (pre ++ pad' ++ post) a = word_at be (pre ++ pad ++ post) a.
Proof.
  intros Hpre Hpad Hpad' [Ha|Ha]; unfold word_at.
  - now rewrite !app_nth1 by lia.
  - rewrite !(app_nth2 pre) by lia. rewrite !(app_nth2 pad) by lia.
    rewrite !(app_nth2 pad') by lia. now rewrite Hpad, Hpad'.
Qed.

(** X12. The four octets at offsets 0x0C to 0x0F of a plaintext file are
    never read: replacing them by any other four octets leaves the run, its
    result and its trace unchanged. *)
Theorem reserved_bytes_ignored (pre pad pad' post : bytes) (be : bool)
        (tr : trace) :
  length pre = 12%nat -> length pad = 4%nat -> length pad' = 4%nat ->
  checkendian (pre ++ pad ++ post) = Some be ->
  unpack zlib_decompress (pre ++ pad' ++ post) tr
  = unpack zlib_decompress (pre ++ pad ++ post) tr.
Proof.
  intros Hpre Hpad Hpad' Hmagic.
  assert (Hmagic' : checkendian (pre ++ pad' ++ post) = Some be)
    by (rewrite checkendian_app by lia;
        rewrite checkendian_app in Hmagic by lia; exact Hmagic).
  assert (Hn : Py.len (pre ++ pad' ++ post) = Py.len (pre ++ pad ++ post))
    by (unfold Py.len; rewrite !length_app; lia).
  rewrite !unpack_spec.
  rewrite (decryption_check_plain _ be _ Hmagic').
  rewrite (decryption_check_plain _ be _ Hmagic).
  cbv zeta. rewrite Hn.
  destruct (Z.ltb_spec (Py.len (pre ++ pad ++ post)) 0x14) as [_|Hlong];
    [reflexivity|].
  rewrite !(word_at_reserved be pre pad pad' post) by (auto; lia).
  assert (Hslice : forall stop,
             Py.slice (pre ++ pad' ++ post) (Some 0x14) stop
             = Py.slice (pre ++ pad ++ post) (Some 0x14) stop).
  { intros stop. unfold Py.slice. rewrite Hn.
    assert (Hlo : Z.to_nat (Py.bound (Py.len (pre ++ pad ++ post)) 0x14)
                  = 20%nat)
      by (unfold Py.bound; cbn [Z.ltb Z.compare]; lia).
    rewrite Hlo. f_equal.
    rewrite !skipn_app, Hpre, Hpad, Hpad'.
    rewrite !(skipn_all2 pre), !(skipn_all2 pad), !(skipn_all2 pad') by lia.
    reflexivity. }
  rewrite Hslice. reflexivity.
Qed.


(** X14. An encrypted file is unpacked as its decryption would be: when
    the file carries no magic and [decrypt] returns a blob that does, the
    run on the file ends as the run on that blob does, with the same
    document, endianness and [fw_magic] or the same failure; only
    [encrypted_cfg] differs. *)
Theorem encrypted_run_is_plaintext_run (cfg blob : bytes) (be : bool)
        (tr tr0 tr0' : trace) :
  checkendian cfg = None ->
  RouterCrypto.decrypt cfg tr0 = (inr blob, tr0') ->
  checkendian blob = Some be ->
  fst (unpack zlib_decompress cfg tr)
  = match fst (unpack zlib_decompress blob tr) with
    | inl e => inl e
    | inr u => inr (mk_unpacked (xml_data u) (big_endian u) true (magic u))
    end.
Proof.
  intros Hnone Hdec Hmagic.
  assert (Hdec' : forall t, RouterCrypto.decrypt cfg t
                            = (inr blob, t ++ [AesDecrypt cfg])).
  { intros t. rewrite (frames_decrypt cfg t).
    rewrite (frames_decrypt cfg tr0) in Hdec.
    apply (f_equal fst) in Hdec. cbn [fst] in Hdec.
    pose proof (decrypt_trace cfg [] _ _ (surjective_pairing _)) as Htr.
    now rewrite Hdec, Htr. }
  rewrite !unpack_spec.
  rewrite (decryption_check_no_magic cfg _ Hnone), Hdec', Hmagic.
  rewrite (decryption_check_plain blob be _ Hmagic).
  cbv zeta.
  destruct (Py.len blob <? 0x14); [reflexivity|].
  destruct (Z.land _ _ =? _); [|reflexivity].
  destruct (search _ _ _) as [[[tried c] out]|]; reflexivity.
Qed.

Lemma decryption_check_failure_report (cfg : bytes) (tr tr' : trace)
      (e : exn) :
  decryption_check cfg tr = (inl e, tr') ->
  exists before, tr' = before ++ [Print MsgInvalidCfg].
Proof.
  destruct (checkendian cfg) as [be|] eqn:Hmagic.
  - rewrite (decryption_check_plain cfg be tr Hmagic). discriminate.
  - rewrite (decryption_check_no_magic cfg tr Hmagic).
    destruct (RouterCrypto.decrypt cfg tr) as [[e'|decrypted] tr1].
    + intros H. injection H as _ <-. now eexists.
    + destruct (checkendian decrypted); [discriminate|].
      intros H. injection H as _ <-. now eexists.
Qed.

(** X15. Every run of the unpack branch that ends with exit status 1 has
    an error report as its last event: the "Invalid cfg file/magic" line
    when the decryption check refused the file, the "CRC32 checksum failed"
    line, or the closing line of the "Decompression failed" report.  A run
    that ends in the uncaught [struct.error] has printed no error at all:
    its last event is the endianness line. *)
Theorem exit_is_reported (cfg : bytes) (tr : trace) (e : exn) :
  fst (unpack zlib_decompress cfg tr) = inl e ->
  exists before m,
    snd (unpack zlib_decompress cfg tr) = before ++ [Print m]
    /\ (e = SystemExit 1 ->
        m = MsgInvalidCfg \/ m = MsgCrcFailed \/ m = MsgNonDeflate)
    /\ (e = StructError -> m = MsgBigEndian \/ m = MsgLittleEndian).
Proof.
  rewrite unpack_spec.
  destruct (decryption_check cfg (tr ++ [Print MsgStart]))
    as [[e0|[[blob be] enc]] tr1] eqn:Hcheck.
  - cbn [fst snd]. intros H. injection H as <-.
    destruct (decryption_check_failure_report _ _ _ _ Hcheck) as [before ->].
    rewrite (decryption_check_error _ _ _ _ Hcheck).
    exists before, MsgInvalidCfg. split; [reflexivity|].
    split; [now left|discriminate].
  - cbv zeta. destruct (Py.len blob <? 0x14).
    { cbn [fst snd]. intros H. injection H as <-.
      exists tr1, (if be then MsgBigEndian else MsgLittleEndian).
      split; [reflexivity|]. split; [discriminate|].
      intros _. destruct be; [now left|now right]. }
    destruct (Z.land _ _ =? _).
    2:{ cbn [fst snd]. intros H. injection H as <-.
        eexists _, MsgCrcFailed. split; [reflexivity|].
        split; [now right; left|discriminate]. }
    destruct (search _ _ _) as [[[tried c] out]|]; cbn [fst snd];
      [discriminate|].
    intros H. injection H as <-.
    eexists _, MsgNonDeflate. split.
    + rewrite !app_assoc.
      change [Print MsgDecompFailed; Print MsgNonDeflate]
        with ([Print MsgDecompFailed] ++ [Print MsgNonDeflate]).
      rewrite !app_assoc. reflexivity.
    + split; [now right; right|discriminate].
Qed.

End Runs.

Lemma unpack_failure_kinds_witness :
  fst (unpack Samples.stored_inflate big_endian_magic []) = inl StructError
  /\ (StructError = SystemExit 1 \/ StructError = StructError)
  /\ (StructError = StructError
      <-> exists blob be enc tr1,
            decryption_check big_endian_magic ([] ++ [Print MsgStart])
            = (inr (blob, be, enc), tr1)
            /\ 4 <= Py.len blob < 0x14).
Proof.
  assert (H : fst (unpack Samples.stored_inflate big_endian_magic [])
              = inl StructError) by reflexivity.
  split; [exact H|].
  exact (unpack_failure_kinds Samples.stored_inflate big_endian_magic [] _ H).
Defined.

Lemma unpack_success_sound_witness :
  let u := mk_unpacked [0x61; 0x62; 0x63] true false 0x4F4E5431 in
  let tr' := snd (unpack Samples.stored_inflate Samples.plain_be []) in
  unpack Samples.stored_inflate Samples.plain_be [] = (inr u, tr')
  /\ exists blob tr1,
       decryption_check Samples.plain_be ([] ++ [Print MsgStart])
       = (inr (blob, big_endian u, encrypted_cfg u), tr1)
       /\ checkendian blob = Some (big_endian u)
       /\ (encrypted_cfg u = true <-> checkendian Samples.plain_be = None)
       /\ 0x14 <= Py.len blob
       /\ magic u = word_at (big_endian u) blob 16
       /\ Z.land (Binascii.crc32
                    (Py.slice blob (Some 0x14)
                              (Some (0x14 + word_at (big_endian u) blob 4))))
                 0xFFFFFFFF
          = word_at (big_endian u) blob 8
       /\ xml_data u <> []
       /\ exists offset wbits,
            In offset offsets
            /\ In wbits wbits_to_try
            /\ Samples.stored_inflate
                 (Py.slice (Py.slice blob (Some 0x14)
                                     (Some (0x14
                                            + word_at (big_endian u) blob 4)))
                           (Some offset) None)
                 wbits
               = Some (xml_data u)
            /\ In (Print (MsgSuccess offset wbits)) tr'.
Proof.
  cbv zeta.
  assert (H : unpack Samples.stored_inflate Samples.plain_be []
              = (inr (mk_unpacked [0x61; 0x62; 0x63] true false 0x4F4E5431),
                 snd (unpack Samples.stored_inflate Samples.plain_be [])))
    by (vm_compute; reflexivity).
  split; [exact H|].
  exact (unpack_success_sound Samples.stored_inflate Samples.plain_be [] _ _ H).
Defined.

Lemma trailing_bytes_ignored_witness :
  is_bytes Samples.plain_be
  /\ checkendian Samples.plain_be = Some true
  /\ 0x14 + word_at true Samples.plain_be 4 <= Py.len Samples.plain_be
  /\ unpack Samples.stored_inflate (Samples.plain_be ++ [1; 2; 3]) []
     = unpack Samples.stored_inflate Samples.plain_be [].
Proof.
  assert (Hb : is_bytes Samples.plain_be)
    by (apply is_bytesb_sound; vm_compute; reflexivity).
  assert (Hm : checkendian Samples.plain_be = Some true) by reflexivity.
  assert (Hf : 0x14 + word_at true Samples.plain_be 4
               <= Py.len Samples.plain_be)
    by (vm_compute; discriminate).
  split; [exact Hb|]. split; [exact Hm|]. split; [exact Hf|].
  exact (trailing_bytes_ignored Samples.stored_inflate Samples.plain_be
                                [1; 2; 3] true [] Hb Hm Hf).
Defined.

Lemma reserved_bytes_ignored_witness :
  let pre := firstn 12 Samples.plain_be in
  let pad := firstn 4 (skipn 12 Samples.plain_be) in
  let post := skipn 16 Samples.plain_be in
  length pre = 12%nat
  /\ length pad = 4%nat
  /\ length [9; 9; 9; 9] = 4%nat
  /\ checkendian (pre ++ pad ++ post) = Some true
  /\ unpack Samples.stored_inflate (pre ++ [9; 9; 9; 9] ++ post) []
     = unpack Samples.stored_inflate (pre ++ pad ++ post) [].
Proof.
  cbv zeta. split; [reflexivity|]. split; [reflexivity|].
  split; [reflexivity|].
  assert (Hm : checkendian (firstn 12 Samples.plain_be
                              ++ firstn 4 (skipn 12 Samples.plain_be)
                              ++ skipn 16 Samples.plain_be) = Some true)
    by reflexivity.
  split; [exact Hm|].
  exact (reserved_bytes_ignored
           Samples.stored_inflate
           (firstn 12 Samples.plain_be)
           (firstn 4 (skipn 12 Samples.plain_be)) [9; 9; 9; 9]
           (skipn 16 Samples.plain_be) true []
           eq_refl eq_refl eq_refl Hm).
Defined.


Lemma encrypted_run_is_plaintext_run_witness :
  checkendian Samples.encrypted_le = None
  /\ RouterCrypto.decrypt Samples.encrypted_le []
     = (inr Samples.plain_le, [AesDecrypt Samples.encrypted_le])
  /\ checkendian Samples.plain_le = Some false
  /\ fst (unpack Samples.stored_inflate Samples.encrypted_le [])
     = match fst (unpack Samples.stored_inflate Samples.plain_le []) with
       | inl e => inl e
       | inr u => inr (mk_unpacked (xml_data u) (big_endian u) true (magic u))
       end.
Proof.
  assert (H1 : checkendian Samples.encrypted_le = None) by reflexivity.
  assert (H2 : RouterCrypto.decrypt Samples.encrypted_le []
               = (inr Samples.plain_le, [AesDecrypt Samples.encrypted_le]))
    by (vm_compute; reflexivity).
  assert (H3 : checkendian Samples.plain_le = Some false) by reflexivity.
  split; [exact H1|]. split; [exact H2|]. split; [exact H3|].
  exact (encrypted_run_is_plaintext_run Samples.stored_inflate _ _ _ [] _ _
                                        H1 H2 H3).
Defined.

Lemma exit_is_reported_witness :
  fst (unpack Samples.stored_inflate Samples.bad_checksum [])
  = inl (SystemExit 1)
  /\ exists before m,
       snd (unpack Samples.stored_inflate Samples.bad_checksum [])
       = before ++ [Print m]
       /\ (SystemExit 1 = SystemExit 1 ->
           m = MsgInvalidCfg \/ m = MsgCrcFailed \/ m = MsgNonDeflate)
       /\ (SystemExit 1 = StructError ->
           m = MsgBigEndian \/ m = MsgLittleEndian).
Proof.
  assert (H : fst (unpack Samples.stored_inflate Samples.bad_checksum [])
              = inl (SystemExit 1)) by reflexivity.
  split; [exact H|].
  exact (exit_is_reported Samples.stored_inflate Samples.bad_checksum [] _ H).
Defined.


(** ** The command line *)

Lemma core_events_map_Core (t : trace) : core_events (map Core t) = t.
Proof.
  unfold core_events. induction t as [|e t IH]; [reflexivity|].
  cbn. now rewrite IH.
Qed.

Lemma files_read_map_Core (t : trace) : files_read (map Core t) = [].
Proof.
  unfold files_read. induction t as [|e t IH]; [reflexivity|]. exact IH.
Qed.

Lemma files_written_map_Core (t : trace) : files_written (map Core t) = [].
Proof.
  unfold files_written. induction t as [|e t IH]; [reflexivity|]. exact IH.
Qed.

Lemma files_read_app (s t : list cli_event) :
  files_read (s ++ t) = files_read s ++ files_read t.
Proof. apply flat_map_app. Qed.

Lemma files_written_app (s t : list cli_event) :
  files_written (s ++ t) = files_written s ++ files_written t.
Proof. apply flat_map_app. Qed.

Section CommandLine.

Variable zlib_decompress : bytes -> Z -> option bytes.
Variable aes_imported : bool.
Variable open_input : string -> open_result.
Variable now : string.
Variable open_output : string -> bool.

(** X16. The script touches the file system and runs unpack stages only
    when it is called as [<prog> -u <path>] with the AES import in place.
    Then the only file it opens for reading is [<path>], and the only other
    file it opens is the output file [config-<now>.xml], for writing, and
    only once the input was read and every stage up to the decompression
    has succeeded on it.  Any other non-empty command line, whatever its
    length or flag, prints the usage text and ends normally, without an
    error status.  Without the AES import a [-u] run ends with exit status
    1 before the file is opened; a missing file ends it with exit status 1
    before any stage runs; any other error of the open or the read is not
    caught and ends the run right there. *)
Theorem main_guards (argv : list string) :
  ((files_read
      (snd (main zlib_decompress aes_imported open_input now open_output
                 argv)) = []
    /\ files_written
         (snd (main zlib_decompress aes_imported open_input now open_output
                    argv)) = []
    /\ core_events
         (snd (main zlib_decompress aes_imported open_input now open_output
                    argv)) = [])
   \/ (aes_imported = true
       /\ exists argv0 path,
            argv = [argv0; "-u"%string; path]
            /\ files_read
                 (snd (main zlib_decompress aes_imported open_input now
                            open_output argv)) = [path]
            /\ (files_written
                  (snd (main zlib_decompress aes_imported open_input now
                             open_output argv)) = []
                \/ (files_written
                      (snd (main zlib_decompress aes_imported open_input now
                                 open_output argv)) = [out_filename now]
                    /\ exists cfg staged tr,
                         open_input path = Opened cfg
                         /\ unpack_stages zlib_decompress cfg []
                            = (inr staged, tr)))))
  /\ (argv <> [] ->
      (forall argv0 path, argv <> [argv0; "-u"%string; path]) ->
      main zlib_decompress aes_imported open_input now open_output argv
      = (inr None,
         [Cli MsgBanner; Cli MsgUsageHeading;
          Cli (MsgUsageLine (hd ""%string argv)); Cli MsgInstallDeps]))
  /\ (forall argv0 path,
         argv = [argv0; "-u"%string; path] ->
         (aes_imported = false ->
          main zlib_decompress aes_imported open_input now open_output argv
          = (inl (Raised (SystemExit 1)),
             [Cli MsgNeedCrypto; Cli MsgInstallCrypto]))
         /\ (aes_imported = true -> open_input path = NotFound ->
             main zlib_decompress aes_imported open_input now open_output
                  argv
             = (inl (Raised (SystemExit 1)),
                [Core (Print MsgStart); OpenRead path;
                 Cli (MsgFileNotFound path)]))
         /\ (aes_imported = true -> open_input path = OpenError ->
             main zlib_decompress aes_imported open_input now open_output
                  argv
             = (inl OSError, [Core (Print MsgStart); OpenRead path]))).
Proof.
  assert (Husage : forall a, files_read (snd (usage a)) = []
                             /\ files_written (snd (usage a)) = []
                             /\ core_events (snd (usage a)) = []).
  { intros [|a0 a]; now repeat split. }
  split; [|split].
  - destruct argv as [|a0 [|flag [|path [|x rest]]]];
      try (left; apply Husage).
    cbn [main]. destruct (String.eqb_spec flag "-u") as [->|Hflag];
      [|left; apply Husage].
    destruct aes_imported; cbn [negb]; [|left; now repeat split].
    right. split; [reflexivity|]. exists a0, path. split; [reflexivity|].
    cbv zeta.
    destruct (open_input path) as [cfg| |] eqn:Hopen;
      [|split; [reflexivity|left; reflexivity]..].
    destruct (unpack_stages zlib_decompress cfg [])
      as [[e|[[[xml be] enc] fw]] tr] eqn:Hrun.
    + cbn [snd]. rewrite files_read_app, files_written_app.
      rewrite files_read_map_Core, files_written_map_Core.
      split; [reflexivity|left; reflexivity].
    + assert (Hr : forall rest : trace,
                 files_read ([Core (Print MsgStart); OpenRead path]
                             ++ map Core tr
                             ++ [OpenWrite (out_filename now)]
                             ++ map Core rest) = [path]).
      { intros rest0. rewrite !files_read_app, !files_read_map_Core.
        reflexivity. }
      assert (Hw : forall rest : trace,
                 files_written ([Core (Print MsgStart); OpenRead path]
                                ++ map Core tr
                                ++ [OpenWrite (out_filename now)]
                                ++ map Core rest) = [out_filename now]).
      { intros rest0. rewrite !files_written_app, !files_written_map_Core.
        reflexivity. }
      destruct (open_output (out_filename now)); cbn [snd].
      * rewrite <- !app_assoc. split; [apply Hr|]. right.
        split; [apply Hw|]. now exists cfg, (xml, be, enc, fw), tr.
      * specialize (Hr []). specialize (Hw []). cbn [map] in Hr, Hw.
        rewrite app_nil_r in Hr, Hw.
        split; [exact Hr|]. right.
        split; [exact Hw|]. now exists cfg, (xml, be, enc, fw), tr.
  - intros Hne Hshape.
    destruct argv as [|a0 [|flag [|path [|x rest]]]]; try reflexivity;
      [contradiction|].
    cbn [main]. destruct (String.eqb_spec flag "-u") as [->|Hflag];
      [|reflexivity].
    now destruct (Hshape a0 path).
  - intros a0 path ->. cbn [main]. rewrite String.eqb_refl.
    split; [|split].
    + intros ->. reflexivity.
    + intros -> ->. reflexivity.
    + intros -> ->. reflexivity.
Qed.

End CommandLine.

Lemma main_guards_witness :
  let argv := ["nokia.py"; "-pb"; "config.xml"; "0x4f4e5431"]%string in
  argv <> []
  /\ (forall argv0 path, argv <> [argv0; "-u"%string; path])
  /\ main Samples.stored_inflate true (fun _ => Opened Samples.plain_be)
          "04112026-120000" (fun _ => true) argv
     = (inr None,
        [Cli MsgBanner; Cli MsgUsageHeading;
         Cli (MsgUsageLine (hd ""%string argv)); Cli MsgInstallDeps]).
Proof.
  cbv zeta.
  assert (H1 : ["nokia.py"; "-pb"; "config.xml"; "0x4f4e5431"]%string <> [])
    by discriminate.
  assert (H2 : forall argv0 path,
             ["nokia.py"; "-pb"; "config.xml"; "0x4f4e5431"]%string
             <> [argv0; "-u"%string; path]) by discriminate.
  split; [exact H1|]. split; [exact H2|].
  exact (proj1 (proj2 (main_guards Samples.stored_inflate true
                                   (fun _ => Opened Samples.plain_be)
                                   "04112026-120000" (fun _ => true) _))
               H1 H2).
Defined.

(** A whole run on the sample file: the input is opened after the start
    line, the output file after the "SUCCESS" line of the search, and the
    events of the stages are those of [unpack]. *)
Example main_sample_run :
  let run := main Samples.stored_inflate true
                  (fun _ => Opened Samples.plain_be)
                  "04112026-120000" (fun _ => true)
                  ["nokia.py"; "-u"; "CFG.cfg"]%string in
  fst run = inr (Some (mk_unpacked [0x61; 0x62; 0x63] true false 0x4F4E5431))
  /\ core_events (snd run)
     = snd (unpack Samples.stored_inflate Samples.plain_be [])
  /\ files_read (snd run) = ["CFG.cfg"%string]
  /\ files_written (snd run) = ["config-04112026-120000.xml"%string].
Proof. cbv zeta. repeat split; vm_compute; reflexivity. Qed.

(** When the output file cannot be created the run ends with the uncaught
    error and nothing is written. *)
Example main_sample_unwritable :
  let run := main Samples.stored_inflate true
                  (fun _ => Opened Samples.plain_be)
                  "04112026-120000" (fun _ => false)
                  ["nokia.py"; "-u"; "CFG.cfg"]%string in
  fst run = inl OSError
  /\ writes (core_events (snd run)) = []
  /\ files_written (snd run) = ["config-04112026-120000.xml"%string].
Proof. cbv zeta. repeat split; vm_compute; reflexivity. Qed.
